(** * WordDateGenerator: schedule generation and table binding

    A shallow embedding of [WordDateGenerator._generate_dates] and
    [WordDateGenerator.add_dates_to_table] (src/WordDateGenerator.py), with
    the properties of the date schedule and of the table writes, and of the
    handlers of [App] that set the excluded days and ranges and that
    generate and save.

    Modelling conventions.
    - A [datetime.date] is identified with its proleptic Gregorian ordinal
      ([date.toordinal()]): comparison, subtraction, [+ timedelta(days=i)]
      and [weekday()] of the datetime library are all defined through it.
      Valid dates are the ordinals of 0001-01-01 .. 9999-12-31; adding a
      timedelta that leaves this interval raises [OverflowError].
    - Python exceptions are values of [exn]; a computation that may raise
      returns a [result].
    - Strings are [string]s of 8-bit characters; [str.lower] is modelled on
      the ASCII letters (other characters are left as they are), which are
      the only characters that [str.lower] sends to a letter of a weekday
      name.
    - The set [excluded_days] is given by the list of its elements in
      iteration order.
    - The table is the list of its rows and a row the list of the texts of
      its cells; [date.strftime] is a parameter of the binder that returns
      the rendered text, or nothing when it rejects the template. *)

From Stdlib Require Import Ascii.
From stdpp Require Import gmap strings list fin_maps sorting.

Local Open Scope Z_scope.

(** ** Exceptions and results *)

Inductive exn : Type :=
  | KeyError (key : string)
  | OverflowError
  | IndexError
  | ValueError
  | FileNotFoundError.

Inductive result (A : Type) : Type :=
  | Ok (a : A)
  | Raise (e : exn).
Arguments Ok {A} a.
Arguments Raise {A} e.

#[global] Instance result_ret : MRet result := fun A a => Ok a.
#[global] Instance result_bind : MBind result := fun A B f m =>
  match m with
  | Ok a => f a
  | Raise e => Raise e
  end.

(** ** Calendar dates *)

Module Date.

Definition date : Type := Z.

(** [date.min.toordinal()] and [date.max.toordinal()]. *)
Definition MINORD : Z := 1.
Definition MAXORD : Z := 3652059.

Definition valid (d : date) : Prop := MINORD ≤ d ≤ MAXORD.

#[global] Instance valid_dec d : Decision (valid d).
Proof. unfold valid. apply _. Defined.

(** [d + timedelta(days=i)]. *)
Definition add_days (d : date) (i : Z) : result date :=
  if decide (valid (d + i)) then Ok (d + i) else Raise OverflowError.

(** [(a - b).days]. *)
Definition days_between (a b : date) : Z := a - b.

(** [d.weekday()]: Monday is 0, Sunday is 6. *)
Definition weekday (d : date) : Z := (d + 6) mod 7.

(** The calendar arithmetic of the datetime library, used to write
    concrete dates as year, month and day. *)
Definition is_leap (year : Z) : bool :=
  (year mod 4 =? 0) && (negb (year mod 100 =? 0) || (year mod 400 =? 0)).

Definition days_before_year (year : Z) : Z :=
  let y := year - 1 in y * 365 + y / 4 - y / 100 + y / 400.

Definition DAYS_BEFORE_MONTH : list Z :=
  [0; 31; 59; 90; 120; 151; 181; 212; 243; 273; 304; 334].

Definition days_before_month (year month : Z) : Z :=
  default 0 (DAYS_BEFORE_MONTH !! Z.to_nat (month - 1))
  + (if (2 <? month) && is_leap year then 1 else 0).

Definition ymd2ord (year month day : Z) : date :=
  days_before_year year + days_before_month year month + day.

End Date.

Abbreviation date := Date.date.

(** [range(n)]: empty when [n <= 0]. *)
Definition range (n : Z) : list Z := seqZ 0 n.

(** ** Strings *)

Definition ascii_lower (c : Ascii.ascii) : Ascii.ascii :=
  let n := Ascii.N_of_ascii c in
  if ((65 <=? n) && (n <=? 90))%N then Ascii.ascii_of_N (n + 32) else c.

Fixpoint lower (s : string) : string :=
  match s with
  | EmptyString => EmptyString
  | String c s' => String (ascii_lower c) (lower s')
  end.

(** Two strings are equal up to letter case. *)
Definition eq_nocase (s t : string) : Prop := lower s = lower t.

(** [d[k]] on a dict. *)
Definition dict_get {V} (d : gmap string V) (k : string) : result V :=
  match d !! k with
  | Some v => Ok v
  | None => Raise (KeyError k)
  end.

(** ** The document table *)

(** A row handle gives indexed access to the text of its cells. *)
Abbreviation row := (list string).
Abbreviation table := (list row).

(** ** WordDateGenerator *)

Record DateRangeElement : Type := {
  get_start_date : date;
  get_end_date : date
}.

Record WordDateGenerator : Type := {
  path : string;
  start_date : date;
  end_date : date;
  date_format : string;
  excluded_days : list string;
  excluded_date_ranges : list DateRangeElement;
  date_column : Z;
  selected_table : table
}.

Definition days_as_numbers : gmap string Z :=
  {[ "monday" := 0; "tuesday" := 1; "wednesday" := 2; "thursday" := 3;
     "friday" := 4; "saturday" := 5; "sunday" := 6 ]}.

(** [days_as_numbers[day.lower()]]. *)
Abbreviation weekday_number :=
  (fun day : string => dict_get days_as_numbers (lower day)).

(** The days of one excluded range:
    [get_start_date() + timedelta(days=i)] for
    [i in range((get_end_date() - get_start_date()).days + 1)]. *)
Definition range_days (r : DateRangeElement) : result (list date) :=
  mapM (Date.add_days (get_start_date r))
       (range (Date.days_between (get_end_date r) (get_start_date r) + 1)).

(** The set comprehension [excluded_dates]. *)
Definition excluded_dates_of (rs : list DateRangeElement) : result (gset Z) :=
  dss ← mapM range_days rs;
  mret (list_to_set (concat dss)).

(** The list comprehension returned by [_generate_dates]: for each [i], the
    date [start_date + timedelta(days=i)] is kept when its weekday is not in
    [excluded_numbers] and the date is not in [excluded_dates].  The source
    writes the sum three times; it is evaluated once here, as it has no
    effect and gives the same date each time. *)
Fixpoint select_dates (start : date) (excluded_numbers : list Z)
    (excluded_dates : gset Z) (idx : list Z) : result (list date) :=
  match idx with
  | [] => mret []
  | i :: idx' =>
      d ← Date.add_days start i;
      if bool_decide (Date.weekday d ∉ excluded_numbers)
         && bool_decide (d ∉ excluded_dates)
      then ds ← select_dates start excluded_numbers excluded_dates idx';
           mret (d :: ds)
      else select_dates start excluded_numbers excluded_dates idx'
  end.

Definition _generate_dates (self : WordDateGenerator)
    (start_date end_date : date) (excluded_days : list string)
    : result (list date) :=
  excluded_numbers ← mapM weekday_number excluded_days;
  excluded_dates ← excluded_dates_of (excluded_date_ranges self);
  select_dates start_date excluded_numbers excluded_dates
    (range (Date.days_between end_date start_date + 1)).

(** [cells[c]] on a sequence of [n] cells: a negative index counts from the
    end; an index outside [-n .. n-1] raises [IndexError]. *)
Definition py_index (n : nat) (c : Z) : result nat :=
  if decide (0 ≤ c < Z.of_nat n) then Ok (Z.to_nat c)
  else if decide (- Z.of_nat n ≤ c < 0) then Ok (Z.to_nat (Z.of_nat n + c))
  else Raise IndexError.

(** [WordDateGenerator.__init__].  [is_file] is the outcome of the test on
    [path], [tables] are the tables of the opened document and [today] is
    [date.today()], which the source reads once for each of the two default
    dates: [today] stands for both reads, taken on one day. *)
Definition init (is_file : bool) (tables : list table) (today : date)
    (path : string) (start_date end_date : option date) (date_format : string)
    (excluded_days : option (list string))
    (excluded_date_ranges : option (list DateRangeElement))
    (date_column : Z) : result WordDateGenerator :=
  if negb is_file then Raise FileNotFoundError else
  let start_date := default today start_date in
  end_date ← match end_date with
             | Some e => mret e
             | None => Date.add_days today 7
             end;
  let excluded_days := default ["saturday"; "sunday"] excluded_days in
  let excluded_date_ranges := default [] excluded_date_ranges in
  match tables !! 0%nat with
  | None => Raise IndexError
  | Some t =>
      mret {| path := path; start_date := start_date; end_date := end_date;
              date_format := date_format; excluded_days := excluded_days;
              excluded_date_ranges := excluded_date_ranges;
              date_column := date_column; selected_table := t |}
  end.

Section TableBinder.

(** The formatting primitive [date.strftime(template)]; [None] when it
    rejects the template for that date (a [ValueError]). *)
Variable strftime : string → date → option string.

(** The loop of [add_dates_to_table]:
    [for row, date in zip(rows, dates):
       row.cells[column].text = date.strftime(date_format)].
    The right-hand side is evaluated before the subscript of the target.
    The result is the table after the loop and how the loop ended. *)
Fixpoint bind (dates : list date) (rows : table) (column_index : Z)
    (date_format : string) : table * result unit :=
  match rows, dates with
  | r :: rows', d :: dates' =>
      match strftime date_format d with
      | None => (rows, Raise ValueError)
      | Some text =>
          match py_index (length r) column_index with
          | Raise e => (rows, Raise e)
          | Ok j =>
              let '(rows'', res) :=
                bind dates' rows' column_index date_format in
              (<[j := text]> r :: rows'', res)
          end
      end
  | _, _ => (rows, Ok ())
  end.

Definition add_dates_to_table (self : WordDateGenerator)
    : WordDateGenerator * result unit :=
  match _generate_dates self (start_date self) (end_date self)
                        (excluded_days self) with
  | Raise e => (self, Raise e)
  | Ok dates =>
      let '(t, res) := bind dates (selected_table self) (date_column self)
                            (date_format self) in
      ({| path := path self; start_date := start_date self;
          end_date := end_date self; date_format := date_format self;
          excluded_days := excluded_days self;
          excluded_date_ranges := excluded_date_ranges self;
          date_column := date_column self; selected_table := t |}, res)
  end.

End TableBinder.

(** The weekday names of [strftime] in the C locale. *)
Definition ABBREVIATED_NAMES : list string :=
  ["Mon"; "Tue"; "Wed"; "Thu"; "Fri"; "Sat"; "Sun"].

Definition FULL_NAMES : list string :=
  ["Monday"; "Tuesday"; "Wednesday"; "Thursday"; "Friday"; "Saturday";
   "Sunday"].

Definition weekday_directive (c : ascii) (d : date) : option string :=
  if decide (c = "a"%char)
  then ABBREVIATED_NAMES !! Z.to_nat (Date.weekday d)
  else if decide (c = "A"%char)
  then FULL_NAMES !! Z.to_nat (Date.weekday d)
  else if decide (c = "%"%char) then Some "%"
  else None.

(** A formatting primitive to run the binder with, for the weekday
    directives of [strftime]: [%a] is the abbreviated and [%A] the full name
    of the weekday, [%%] is a percent sign, and the other characters stand
    for themselves.  It rejects every other directive and a template that
    ends in an unfinished one. *)
Fixpoint weekday_strftime (fmt : string) (d : date) : option string :=
  match fmt with
  | EmptyString => Some EmptyString
  | String c rest =>
      if decide (c = "%"%char)
      then match rest with
           | EmptyString => None
           | String c' rest' =>
               text ← weekday_directive c' d;
               tail ← weekday_strftime rest' d;
               Some (text +:+ tail)
           end
      else tail ← weekday_strftime rest d; Some (String c tail)
  end.

(** The spec's enumeration of the weekdays: Monday = 0 ... Sunday = 6. *)
Definition weekday_names : list string :=
  ["monday"; "tuesday"; "wednesday"; "thursday"; "friday"; "saturday";
   "sunday"].

(** A string that is, up to letter case, one of the seven weekday names. *)
Definition is_weekday_name (s : string) : Prop :=
  ∃ name, name ∈ weekday_names ∧ eq_nocase s name.

(** The canonical name of the weekday of a date. *)
Definition weekday_name (d : date) : string :=
  default "" (weekday_names !! Z.to_nat (Date.weekday d)).

(** The test of the list comprehension of [_generate_dates] on a date. *)
Definition kept (excluded_numbers : list Z) (excluded_dates : gset Z)
    (d : date) : Prop :=
  (Date.weekday d ∉ excluded_numbers) ∧ (d ∉ excluded_dates).

#[global] Instance kept_dec nums X d : Decision (kept nums X d).
Proof. unfold kept. apply _. Defined.

(** Both ends of an excluded range are dates. *)
Definition valid_range (r : DateRangeElement) : Prop :=
  Date.valid (get_start_date r) ∧ Date.valid (get_end_date r).

(** A configuration that differs from [self] in its excluded ranges only. *)
Definition with_ranges (self : WordDateGenerator)
    (rs : list DateRangeElement) : WordDateGenerator :=
  {| path := path self; start_date := start_date self;
     end_date := end_date self; date_format := date_format self;
     excluded_days := excluded_days self; excluded_date_ranges := rs;
     date_column := date_column self; selected_table := selected_table self |}.

(** A configuration to run the definitions on: the first week of 2024
    (a Monday to a Sunday) and a table of five rows of three cells. *)
Definition table0 : table :=
  [["a0"; "b0"; "c0"]; ["a1"; "b1"; "c1"]; ["a2"; "b2"; "c2"];
   ["a3"; "b3"; "c3"]; ["a4"; "b4"; "c4"]].

Definition format0 : string := "%a. week 1".

Definition self0 : WordDateGenerator :=
  {| path := "schedule.docx"; start_date := Date.ymd2ord 2024 1 1;
     end_date := Date.ymd2ord 2024 1 7; date_format := format0;
     excluded_days := ["saturday"; "sunday"]; excluded_date_ranges := [];
     date_column := 1; selected_table := table0 |}.

(** ** The application

    The state of [App] that its handlers for the weekday checkboxes and for
    the excluded ranges read and write.  A checkbox is its text and its
    state.  A [DateRangeElement] widget is an object identity (a number),
    [App.exclude_ranges] and [document.excluded_date_ranges] are references
    to list objects on a heap of lists, so that two references to one list
    see each other's changes.  The toolkit toggles a checkbox before it
    calls its command and delivers no click to a disabled widget. *)

Record CTkCheckBox : Type := {
  cget_text : string;
  checkbox_get : bool
}.

Record Document : Type := {
  document_excluded_days : gset string;
  document_excluded_date_ranges : nat
}.

Record App : Type := {
  ui_enabled : bool;
  exclude_day_checkboxes : list CTkCheckBox;
  heap : gmap nat (list nat);
  exclude_ranges : nat;
  document : option Document
}.

(** How a handler ends.  [AttributeError] is raised by [self.document] when
    no document has been opened. *)
Inductive outcome : Type :=
  | Returned
  | Raised (e : exn)
  | RaisedAttributeError.

(** The part of [App.__init__] that builds this state: seven checkboxes, the
    last two checked, an empty list of ranges, no document, and the widgets
    disabled. *)
Definition App_init : App :=
  {| ui_enabled := false;
     exclude_day_checkboxes :=
       [ {| cget_text := "Monday"; checkbox_get := false |};
         {| cget_text := "Tuesday"; checkbox_get := false |};
         {| cget_text := "Wednesday"; checkbox_get := false |};
         {| cget_text := "Thursday"; checkbox_get := false |};
         {| cget_text := "Friday"; checkbox_get := false |};
         {| cget_text := "Saturday"; checkbox_get := true |};
         {| cget_text := "Sunday"; checkbox_get := true |} ];
     heap := {[ 0%nat := [] ]};
     exclude_ranges := 0%nat;
     document := None |}.

(** [{checkbox.cget("text").lower() for checkbox in
      self.exclude_day_checkboxes if checkbox.get()}]. *)
Definition checked_days (boxes : list CTkCheckBox) : gset string :=
  list_to_set
    ((fun cb => lower (cget_text cb))
       <$> filter (fun cb => checkbox_get cb = true) boxes).

(** [App._path_entry_handler], as far as this state goes.  The generator is
    built with the defaults of [__init__] (whose own list of ranges is a new
    list object); only [FileNotFoundError] is caught.  Then the excluded days
    are read off the checkboxes and the list of ranges of the document is
    made the list of the application. *)
Definition _path_entry_handler (self : App) (is_file : bool)
    (tables : list table) (today : date) (path_entry : string)
    : App * outcome :=
  match init is_file tables today path_entry None None "%a. %b. %d"
             None None 0 with
  | Raise FileNotFoundError =>
      ({| ui_enabled := false;
          exclude_day_checkboxes := exclude_day_checkboxes self;
          heap := heap self; exclude_ranges := exclude_ranges self;
          document := document self |}, Returned)
  | Raise e => (self, Raised e)
  | Ok _ =>
      let own_list := fresh (dom (heap self)) in
      ({| ui_enabled := true;
          exclude_day_checkboxes := exclude_day_checkboxes self;
          heap := <[own_list := []]> (heap self);
          exclude_ranges := exclude_ranges self;
          document :=
            Some {| document_excluded_days :=
                      checked_days (exclude_day_checkboxes self);
                    document_excluded_date_ranges := exclude_ranges self |}
       |}, Returned)
  end.

(** [App._weekday_checkbox_handler]: [set.add], or [set.remove], which
    raises [KeyError] for a missing member. *)
Definition _weekday_checkbox_handler (self : App)
    (weekday_checkbox : CTkCheckBox) : App * outcome :=
  let checkbox_name := lower (cget_text weekday_checkbox) in
  match document self with
  | None => (self, RaisedAttributeError)
  | Some doc =>
      let days := document_excluded_days doc in
      if checkbox_get weekday_checkbox
      then ({| ui_enabled := ui_enabled self;
               exclude_day_checkboxes := exclude_day_checkboxes self;
               heap := heap self; exclude_ranges := exclude_ranges self;
               document :=
                 Some {| document_excluded_days := {[checkbox_name]} ∪ days;
                         document_excluded_date_ranges :=
                           document_excluded_date_ranges doc |} |},
            Returned)
      else if decide (checkbox_name ∈ days)
      then ({| ui_enabled := ui_enabled self;
               exclude_day_checkboxes := exclude_day_checkboxes self;
               heap := heap self; exclude_ranges := exclude_ranges self;
               document :=
                 Some {| document_excluded_days := days ∖ {[checkbox_name]};
                         document_excluded_date_ranges :=
                           document_excluded_date_ranges doc |} |},
            Returned)
      else (self, Raised (KeyError checkbox_name))
  end.

(** A click on the [k]-th weekday checkbox: its state is toggled, then its
    command, the handler above, is called on it. *)
Definition click_weekday (self : App) (k : nat) : App * outcome :=
  match exclude_day_checkboxes self !! k with
  | None => (self, Returned)
  | Some cb =>
      let cb' := {| cget_text := cget_text cb;
                    checkbox_get := negb (checkbox_get cb) |} in
      _weekday_checkbox_handler
        {| ui_enabled := ui_enabled self;
           exclude_day_checkboxes := <[k := cb']> (exclude_day_checkboxes self);
           heap := heap self; exclude_ranges := exclude_ranges self;
           document := document self |}
        cb'
  end.

(** [l.append(x)] on the list object at an address. *)
Definition heap_append (a x : nat) (h : gmap nat (list nat))
    : gmap nat (list nat) :=
  alter (fun l => l ++ [x]) a h.

(** [l.remove(x)]: the first occurrence is removed; [ValueError] when there
    is none. *)
Fixpoint list_remove (x : nat) (l : list nat) : result (list nat) :=
  match l with
  | [] => Raise ValueError
  | y :: l' =>
      if decide (x = y) then Ok l'
      else l'' ← list_remove x l'; mret (y :: l'')
  end.

(** [App._exclude_new_range_handler], for the new widget [date_range]. *)
Definition _exclude_new_range_handler (self : App) (date_range : nat)
    : App * outcome :=
  let heap1 := heap_append (exclude_ranges self) date_range (heap self) in
  match document self with
  | None =>
      ({| ui_enabled := ui_enabled self;
          exclude_day_checkboxes := exclude_day_checkboxes self;
          heap := heap1; exclude_ranges := exclude_ranges self;
          document := document self |}, RaisedAttributeError)
  | Some doc =>
      ({| ui_enabled := ui_enabled self;
          exclude_day_checkboxes := exclude_day_checkboxes self;
          heap := heap_append (document_excluded_date_ranges doc)
                              date_range heap1;
          exclude_ranges := exclude_ranges self;
          document := document self |}, Returned)
  end.

(** [App._remove_date_range_element]. *)
Definition _remove_date_range_element (self : App) (date_range_element : nat)
    : App * outcome :=
  match list_remove date_range_element
          (default [] (heap self !! exclude_ranges self)) with
  | Raise e => (self, Raised e)
  | Ok l1 =>
      let heap1 := <[exclude_ranges self := l1]> (heap self) in
      let self1 :=
        {| ui_enabled := ui_enabled self;
           exclude_day_checkboxes := exclude_day_checkboxes self;
           heap := heap1; exclude_ranges := exclude_ranges self;
           document := document self |} in
      match document self with
      | None => (self1, RaisedAttributeError)
      | Some doc =>
          let a := document_excluded_date_ranges doc in
          match list_remove date_range_element (default [] (heap1 !! a)) with
          | Raise e => (self1, Raised e)
          | Ok l2 =>
              ({| ui_enabled := ui_enabled self;
                  exclude_day_checkboxes := exclude_day_checkboxes self;
                  heap := <[a := l2]> heap1;
                  exclude_ranges := exclude_ranges self;
                  document := document self |}, Returned)
          end
      end
  end.

(** The ranges that the generator of the document reads: the widgets of its
    list, each with the dates that its two entries hold. *)
Definition document_ranges (self : App) (doc : Document)
    (entries : nat → DateRangeElement) : list DateRangeElement :=
  entries <$> default [] (heap self !! document_excluded_date_ranges doc).

(** The states of the application: the handlers run from the initial state,
    those of the checkboxes and of the ranges while the widgets are enabled,
    for a new range on a widget that is new and for a removal on a widget of
    the list. *)
Inductive reachable : App → Prop :=
  | reachable_init : reachable App_init
  | reachable_path_entry self is_file tables today path_entry :
      reachable self →
      reachable (_path_entry_handler self is_file tables today path_entry).1
  | reachable_click_weekday self k :
      reachable self → ui_enabled self = true →
      reachable (click_weekday self k).1
  | reachable_new_range self w :
      reachable self → ui_enabled self = true →
      w ∉ default [] (heap self !! exclude_ranges self) →
      reachable (_exclude_new_range_handler self w).1
  | reachable_remove_range self w :
      reachable self → ui_enabled self = true →
      w ∈ default [] (heap self !! exclude_ranges self) →
      reachable (_remove_date_range_element self w).1.

(** Each widget of the list twice. *)
Definition twice (ws : list nat) : list nat := ws ≫= (fun w => [w; w]).

(** What holds of every state of the application. *)
Definition consistent (self : App) : Prop :=
  cget_text <$> exclude_day_checkboxes self = FULL_NAMES
  ∧ (ui_enabled self = true → is_Some (document self))
  ∧ (∀ doc, document self = Some doc →
       document_excluded_days doc = checked_days (exclude_day_checkboxes self)
       ∧ document_excluded_date_ranges doc = exclude_ranges self)
  ∧ ∃ ws, NoDup ws ∧ heap self !! exclude_ranges self = Some (twice ws).

(** ** Generating and saving *)

(** [s.endswith(suffix)]. *)
Definition endswith (s suffix : string) : bool :=
  bool_decide (String.list_ascii_of_string suffix
               `suffix_of` String.list_ascii_of_string s).

(** [WordDateGenerator.save]: the path that the document is saved to, the
    path it was opened from when none is given. *)
Definition save (self : WordDateGenerator) (path_arg : option string)
    : string :=
  default (path self) path_arg.

(** What [App._generate] leaves: the generator, the path that the document
    was saved to, if it was, and whether the button shows that the work is
    done. *)
Record Generated : Type := {
  generated_document : WordDateGenerator;
  saved_to : option string;
  button_done : bool
}.

(** [App._generate].  [asksaveasfilename] is what the file dialogue returns
    when it is shown: the chosen path, or the empty string when it is
    closed. *)
Definition _generate (strftime : string → date → option string)
    (document : WordDateGenerator) (save_as_new_file : bool)
    (asksaveasfilename : string) : Generated * result unit :=
  match add_dates_to_table strftime document with
  | (document', Raise e) =>
      ({| generated_document := document'; saved_to := None;
          button_done := false |}, Raise e)
  | (document', Ok _) =>
      if save_as_new_file
      then if decide (asksaveasfilename = "")
           then ({| generated_document := document'; saved_to := None;
                    button_done := false |}, Ok ())
           else
             let path :=
               if endswith asksaveasfilename ".docx" then asksaveasfilename
               else asksaveasfilename +:+ ".docx" in
             ({| generated_document := document';
                 saved_to := Some (save document' (Some path));
                 button_done := true |}, Ok ())
      else ({| generated_document := document';
               saved_to := Some (save document' None);
               button_done := true |}, Ok ())
  end.

(** States to run the handlers on: the application after the document of
    [self0] has been opened, and after a range has then been added. *)
Definition app1 : App :=
  (_path_entry_handler App_init true [table0] 738886 "schedule.docx").1.

Definition app2 : App := (_exclude_new_range_handler app1 7).1.

Definition doc1 : Document :=
  {| document_excluded_days := checked_days (exclude_day_checkboxes App_init);
     document_excluded_date_ranges := 0 |}.

(** A generator with an excluded day that is no weekday, and one with its
    end date before its start date. *)
Definition self_funday : WordDateGenerator :=
  {| path := "schedule.docx"; start_date := 738886; end_date := 738892;
     date_format := format0; excluded_days := ["sunday"; "funday"];
     excluded_date_ranges := []; date_column := 1; selected_table := table0 |}.

Definition self_reversed : WordDateGenerator :=
  {| path := "schedule.docx"; start_date := 738892; end_date := 738886;
     date_format := format0; excluded_days := ["Saturday"];
     excluded_date_ranges := []; date_column := 1; selected_table := table0 |}.

(** ** The result monad *)

Lemma bind_Ok {A B} (f : A → result B) (m : result A) (b : B) :
  m ≫= f = Ok b ↔ ∃ a, m = Ok a ∧ f a = Ok b.
Proof.
  destruct m as [a|e]; simpl; split.
  - intros H. by exists a.
  - by intros (a' & [= <-] & H).
  - discriminate.
  - by intros (a' & [=] & _).
Qed.

Lemma bind_Raise {A B} (f : A → result B) (m : result A) (e : exn) :
  m ≫= f = Raise e ↔ m = Raise e ∨ ∃ a, m = Ok a ∧ f a = Raise e.
Proof.
  destruct m as [a|e']; simpl; split.
  - intros H. right. by exists a.
  - intros [[=]|(a' & [= <-] & H)]. done.
  - intros [= ->]. by left.
  - intros [[= ->]|(a' & [=] & _)]. done.
Qed.

Section mapM.
Context {A B : Type} (f : A → result B).

Lemma mapM_Ok (l : list A) (ks : list B) :
  mapM f l = Ok ks ↔ Forall2 (fun x y => f x = Ok y) l ks.
Proof.
  revert ks. induction l as [|x l IH]; intros ks; simpl.
  - split.
    + intros [= <-]. constructor.
    + intros H. by inversion H.
  - rewrite bind_Ok. split.
    + intros (y & Hy & H). apply bind_Ok in H as (k & Hk & [= <-]).
      constructor; [done|]. by apply IH.
    + intros H. inversion H as [|? y ? k Hy Hk]; subst.
      exists y. split; [done|]. apply bind_Ok. exists k.
      split; [by apply IH | done].
Qed.

Lemma mapM_Raise (l : list A) (e : exn) :
  mapM f l = Raise e → ∃ x, x ∈ l ∧ f x = Raise e.
Proof.
  induction l as [|x l IH]; simpl; [discriminate|].
  rewrite bind_Raise. intros [H|(y & Hy & H)].
  - exists x. split; [left | done].
  - apply bind_Raise in H as [H|(k & _ & [=])].
    destruct (IH H) as (x' & Hin & Hx'). exists x'. split; [by right | done].
Qed.

(** [mapM] returns a list or raises: when some element raises, so does
    the whole, with the exception of an element of the list. *)
Lemma mapM_raises (l : list A) (x : A) (e : exn) :
  x ∈ l → f x = Raise e → ∃ e', mapM f l = Raise e'.
Proof.
  intros Hin Hx. destruct (mapM f l) as [ks|e'] eqn:E; [|by exists e'].
  apply mapM_Ok in E.
  destruct (proj1 (list_elem_of_lookup l x) Hin) as [i Hi].
  destruct (Forall2_lookup_l _ _ _ _ _ E Hi) as (y & _ & Hy). congruence.
Qed.
End mapM.

(** ** Dates *)

Lemma add_days_Ok (s i d : Z) :
  Date.add_days s i = Ok d ↔ d = s + i ∧ Date.valid d.
Proof.
  unfold Date.add_days. case_decide; split.
  - by intros [= <-].
  - by intros [-> _].
  - discriminate.
  - intros [-> ?]. done.
Qed.

Lemma elem_of_range (i n : Z) : i ∈ range n ↔ 0 ≤ i < n.
Proof. unfold range. rewrite elem_of_seqZ. lia. Qed.

Lemma mapM_add_days_Ok (s : Z) (l : list Z) (ds : list Z) :
  mapM (Date.add_days s) l = Ok ds ↔
  ds = Z.add s <$> l ∧ Forall (fun i => Date.valid (s + i)) l.
Proof.
  rewrite mapM_Ok. revert ds. induction l as [|i l IH]; intros ds.
  - split.
    + intros H. inversion H. by split.
    + intros [-> _]. constructor.
  - split.
    + intros H. inversion H as [|? d ? ds' Hd Hds]; subst.
      apply add_days_Ok in Hd as [-> Hv]. apply IH in Hds as [-> Hl].
      split; [done | by constructor].
    + intros [-> Hl]. inversion Hl as [|? ? Hv Hl']; subst. simpl.
      constructor; [by apply add_days_Ok | by apply IH].
Qed.

Lemma range_days_Ok (r : DateRangeElement) (ds : list Z) :
  range_days r = Ok ds →
  ∀ d, d ∈ ds ↔ get_start_date r ≤ d ≤ get_end_date r.
Proof.
  unfold range_days, Date.days_between. rewrite mapM_add_days_Ok.
  intros [-> _] d. rewrite list_elem_of_fmap. split.
  - intros (i & -> & Hi). apply elem_of_range in Hi. lia.
  - intros Hd. exists (d - get_start_date r). split; [lia|].
    apply elem_of_range. lia.
Qed.

Lemma range_days_valid (r : DateRangeElement) :
  valid_range r → ∃ ds, range_days r = Ok ds.
Proof.
  intros [Hs He]. eexists. unfold range_days. apply mapM_add_days_Ok.
  split; [done|]. apply Forall_forall. intros i Hi.
  apply elem_of_range in Hi. unfold Date.days_between in Hi.
  unfold Date.valid in *. lia.
Qed.

Lemma range_days_empty (r : DateRangeElement) :
  get_end_date r < get_start_date r → range_days r = Ok [].
Proof.
  intros H. unfold range_days, Date.days_between, range.
  rewrite seqZ_nil by lia. done.
Qed.

(** ** The excluded dates *)

Lemma excluded_dates_of_Ok (rs : list DateRangeElement) (X : gset Z) :
  excluded_dates_of rs = Ok X →
  ∀ d, d ∈ X ↔ ∃ r, r ∈ rs ∧ get_start_date r ≤ d ≤ get_end_date r.
Proof.
  unfold excluded_dates_of. rewrite bind_Ok.
  intros (dss & Hdss & [= <-]) d. apply mapM_Ok in Hdss.
  induction Hdss as [|r ds rs dss Hr _ IH]; simpl.
  - split; [set_solver|]. intros (r & Hr & _). by apply elem_of_nil in Hr.
  - rewrite list_to_set_app_L, elem_of_union, elem_of_list_to_set, IH.
    rewrite (range_days_Ok r ds Hr d). split.
    + intros [H|(r' & Hin & H)].
      * exists r. split; [left | done].
      * exists r'. split; [by right | done].
    + intros (r' & Hin & H). apply elem_of_cons in Hin as [->|Hin].
      * by left.
      * right. by exists r'.
Qed.

Lemma excluded_dates_of_valid (rs : list DateRangeElement) :
  Forall valid_range rs → ∃ X, excluded_dates_of rs = Ok X.
Proof.
  intros Hrs. unfold excluded_dates_of.
  assert (∃ dss, mapM range_days rs = Ok dss) as [dss ->];
    [|by eexists].
  induction Hrs as [|r rs Hr _ [dss IH]]; [by exists []|].
  destruct (range_days_valid r Hr) as [ds Hds].
  exists (ds :: dss). simpl. rewrite Hds. simpl. by rewrite IH.
Qed.

Lemma excluded_dates_of_nil : excluded_dates_of [] = Ok ∅.
Proof. reflexivity. Qed.

(** A range whose end is before its start adds nothing to the set. *)
Lemma excluded_dates_of_skip (l1 l2 : list DateRangeElement)
    (r : DateRangeElement) :
  get_end_date r < get_start_date r →
  excluded_dates_of (l1 ++ r :: l2) = excluded_dates_of (l1 ++ l2).
Proof.
  intros Hr. unfold excluded_dates_of.
  induction l1 as [|r1 l1 IH]; simpl.
  - rewrite (range_days_empty r Hr). simpl.
    by destruct (mapM range_days l2).
  - destruct (range_days r1) as [ds1|e]; simpl; [|done].
    destruct (mapM range_days (l1 ++ r :: l2)) as [dss|e],
             (mapM range_days (l1 ++ l2)) as [dss'|e']; simpl in *;
      unfold mret, result_ret in *; try congruence.
    injection IH as IH. f_equal.
    rewrite !list_to_set_app_L. by rewrite IH.
Qed.

(** ** The selection of the dates *)

Section SelectDates.
Context (start : Z) (nums : list Z) (X : gset Z).

#[local] Abbreviation kept := (kept nums X).

Lemma select_dates_cons (i : Z) (idx : list Z) :
  select_dates start nums X (i :: idx) =
  d ← Date.add_days start i;
  if decide (kept d)
  then ds ← select_dates start nums X idx; mret (d :: ds)
  else select_dates start nums X idx.
Proof.
  simpl. destruct (Date.add_days start i) as [d|e]; simpl; [|done].
  unfold kept. case_decide; repeat case_bool_decide; simpl; tauto.
Qed.

Lemma select_dates_Ok (idx : list Z) (out : list Z) :
  select_dates start nums X idx = Ok out ↔
  out = filter kept (Z.add start <$> idx)
  ∧ Forall (fun i => Date.valid (start + i)) idx.
Proof.
  revert out. induction idx as [|i idx IH]; intros out.
  - simpl. split.
    + intros [= <-]. by split.
    + by intros [-> _].
  - rewrite select_dates_cons, bind_Ok, fmap_cons, filter_cons. split.
    + intros (d & Hd & H). apply add_days_Ok in Hd as [-> Hv].
      destruct (decide (kept (start + i))) as [Hk|Hk].
      * apply bind_Ok in H as (ds & Hds & [= <-]).
        apply IH in Hds as [-> Hl]. split; [done | by constructor].
      * apply IH in H as [-> Hl]. split; [done | by constructor].
    + intros [-> Hl]. inversion Hl as [|? ? Hv Hl']; subst.
      exists (start + i). split; [by apply add_days_Ok|].
      destruct (decide (kept (start + i))) as [Hk|Hk].
      * apply bind_Ok. eexists. split; [by apply IH | done].
      * by apply IH.
Qed.

Lemma select_dates_range (s e : Z) :
  Date.valid s → Date.valid e →
  Forall (fun i => Date.valid (s + i)) (range (Date.days_between e s + 1)).
Proof.
  intros Hs He. apply Forall_forall. intros i Hi.
  apply elem_of_range in Hi. unfold Date.days_between in Hi.
  unfold Date.valid in *. lia.
Qed.
End SelectDates.

(** ** Weekday names *)

Lemma days_as_numbers_spec (s : string) (k : Z) :
  days_as_numbers !! s = Some k ↔
  0 ≤ k ∧ weekday_names !! Z.to_nat k = Some s.
Proof.
  split.
  - unfold days_as_numbers.
    rewrite !lookup_insert_Some, lookup_singleton_Some.
    intros H. repeat (destruct H as [[<- <-]|[_ H]]; [by split|]).
    destruct H as [<- <-]. by split.
  - intros [Hk H]. rewrite <- (Z2Nat.id k Hk).
    destruct (Z.to_nat k) as [|[|[|[|[|[|[|n]]]]]]]; simpl in H;
      try (injection H as <-; reflexivity).
    discriminate.
Qed.

Lemma lower_weekday_name (name : string) :
  name ∈ weekday_names → lower name = name.
Proof.
  unfold weekday_names. intros H.
  repeat (apply elem_of_cons in H as [->|H]; [reflexivity|]).
  by apply elem_of_nil in H.
Qed.

Lemma is_weekday_name_lookup (s : string) :
  is_weekday_name s ↔ is_Some (days_as_numbers !! lower s).
Proof.
  split.
  - intros (name & Hin & Heq). unfold eq_nocase in Heq.
    rewrite (lower_weekday_name name Hin) in Heq. rewrite Heq.
    apply list_elem_of_lookup in Hin as [i Hi]. exists (Z.of_nat i).
    apply days_as_numbers_spec. rewrite Nat2Z.id. split; [lia | done].
  - intros [k Hk]. apply days_as_numbers_spec in Hk as [_ Hk].
    assert (lower s ∈ weekday_names) as Hin
      by (apply list_elem_of_lookup; eauto).
    exists (lower s). split; [done|]. unfold eq_nocase.
    by rewrite (lower_weekday_name _ Hin).
Qed.

Lemma dict_get_Ok {V} (d : gmap string V) (k : string) (v : V) :
  dict_get d k = Ok v ↔ d !! k = Some v.
Proof.
  unfold dict_get. destruct (d !! k); split; intros H;
    try discriminate; congruence.
Qed.

Lemma dict_get_Raise {V} (d : gmap string V) (k : string) (e : exn) :
  dict_get d k = Raise e ↔ d !! k = None ∧ e = KeyError k.
Proof.
  unfold dict_get. destruct (d !! k); split.
  - discriminate.
  - by intros [[=] _].
  - by intros [= <-].
  - by intros [_ ->].
Qed.

Lemma excluded_numbers_Ok (days : list string) (nums : list Z) :
  mapM weekday_number days = Ok nums →
  ∀ k, k ∈ nums ↔ ∃ day, day ∈ days ∧ days_as_numbers !! lower day = Some k.
Proof.
  rewrite mapM_Ok. intros H k.
  induction H as [|day n days nums Hday _ IH].
  - split.
    + intros Hk. by apply elem_of_nil in Hk.
    + intros (day & Hd & _). by apply elem_of_nil in Hd.
  - apply dict_get_Ok in Hday. rewrite elem_of_cons, IH. split.
    + intros [->|(day' & Hin & H)].
      * exists day. split; [left | done].
      * exists day'. split; [by right | done].
    + intros (day' & Hin & H). apply elem_of_cons in Hin as [->|Hin].
      * left. congruence.
      * right. by exists day'.
Qed.

Lemma excluded_numbers_valid (days : list string) :
  (∀ day, day ∈ days → is_weekday_name day) →
  ∃ nums, mapM weekday_number days = Ok nums.
Proof.
  intros Hall. destruct (mapM weekday_number days) as [nums|e] eqn:E;
    [by exists nums|].
  apply mapM_Raise in E as (day & Hin & Hday).
  apply dict_get_Raise in Hday as [Hnone _].
  apply Hall, is_weekday_name_lookup in Hin as [k Hk]. congruence.
Qed.

Lemma excluded_numbers_invalid (days : list string) (day : string) :
  day ∈ days → ¬ is_weekday_name day →
  ∃ bad, bad ∈ days ∧ ¬ is_weekday_name bad
         ∧ mapM weekday_number days = Raise (KeyError (lower bad)).
Proof.
  intros Hin Hday.
  assert (weekday_number day = Raise (KeyError (lower day))) as Hr.
  { apply dict_get_Raise. split; [|done].
    destruct (days_as_numbers !! lower day) eqn:E; [|done].
    exfalso. apply Hday, is_weekday_name_lookup. by rewrite E. }
  destruct (mapM_raises _ _ _ _ Hin Hr) as [e He].
  destruct (mapM_Raise _ _ _ He) as (bad & Hbad & Hb).
  apply dict_get_Raise in Hb as [Hnone ->].
  exists bad. split; [done|]. split; [|done].
  intros Hw. apply is_weekday_name_lookup in Hw as [k Hk]. congruence.
Qed.

(** ** The generator *)

Lemma generate_dates_Ok (self : WordDateGenerator) (s e : Z)
    (days : list string) (out : list Z) :
  _generate_dates self s e days = Ok out ↔
  ∃ nums X,
    mapM weekday_number days = Ok nums
    ∧ excluded_dates_of (excluded_date_ranges self) = Ok X
    ∧ out = filter (kept nums X)
                   (Z.add s <$> range (Date.days_between e s + 1))
    ∧ Forall (fun i => Date.valid (s + i))
             (range (Date.days_between e s + 1)).
Proof.
  unfold _generate_dates. rewrite bind_Ok. split.
  - intros (nums & Hn & H). apply bind_Ok in H as (X & HX & H).
    apply select_dates_Ok in H. by exists nums, X.
  - intros (nums & X & Hn & HX & H). exists nums. split; [done|].
    apply bind_Ok. exists X. split; [done|]. by apply select_dates_Ok.
Qed.

Lemma add_days_Raise (s i : Z) (e : exn) :
  Date.add_days s i = Raise e → e = OverflowError.
Proof. unfold Date.add_days. case_decide; congruence. Qed.

Lemma excluded_dates_of_Raise (rs : list DateRangeElement) (e : exn) :
  excluded_dates_of rs = Raise e → e = OverflowError.
Proof.
  unfold excluded_dates_of. rewrite bind_Raise.
  intros [H|(dss & _ & [=])].
  apply mapM_Raise in H as (r & _ & H).
  apply mapM_Raise in H as (i & _ & H). by apply add_days_Raise in H.
Qed.

Lemma select_dates_Raise (s : Z) (nums : list Z) (X : gset Z)
    (idx : list Z) (e : exn) :
  select_dates s nums X idx = Raise e → e = OverflowError.
Proof.
  induction idx as [|i idx IH]; [discriminate|].
  rewrite select_dates_cons, bind_Raise.
  intros [H|(d & _ & H)]; [by apply add_days_Raise in H|].
  case_decide; [|by apply IH].
  apply bind_Raise in H as [H|(ds & _ & [=])]. by apply IH.
Qed.

Lemma filter_all {A} (P : A → Prop) `{∀ x, Decision (P x)} (l : list A) :
  Forall P l → filter P l = l.
Proof.
  induction 1 as [|x l Hx _ IH]; [done|].
  by rewrite filter_cons_True, IH.
Qed.

Lemma weekday_bounds (d : Z) : 0 ≤ Date.weekday d < 7.
Proof. unfold Date.weekday. apply Z.mod_pos_bound. lia. Qed.

Lemma weekday_name_lookup (d : Z) :
  weekday_names !! Z.to_nat (Date.weekday d) = Some (weekday_name d).
Proof.
  unfold weekday_name. pose proof (weekday_bounds d) as Hb.
  destruct (weekday_names !! Z.to_nat (Date.weekday d)) eqn:E; [done|].
  apply lookup_ge_None in E. simpl in E. lia.
Qed.

(** ** Properties of the generated schedule *)

(** C1. For [start_date <= end_date], an empty set of excluded weekdays and no
    excluded range, [_generate_dates] returns exactly
    [(end_date - start_date).days + 1] dates: they begin at [start_date],
    each is the day after the one before it (no gap), and they are strictly
    ascending. *)
Theorem generate_no_exclusions (self : WordDateGenerator) (s e : Z) :
  Date.valid s → Date.valid e → s ≤ e →
  excluded_date_ranges self = [] →
  ∃ out,
    _generate_dates self s e [] = Ok out
    ∧ Z.of_nat (length out) = Date.days_between e s + 1
    ∧ out !! 0%nat = Some s
    ∧ (∀ i a b, out !! i = Some a → out !! S i = Some b → b = a + 1)
    ∧ (∀ i j a b, (i < j)%nat → out !! i = Some a → out !! j = Some b → a < b).
Proof.
  intros Hs He Hle Hrs. exists (seqZ s (e - s + 1)).
  assert (∀ i a, seqZ s (e - s + 1) !! i = Some a → a = s + Z.of_nat i) as Hlk.
  { intros i a H. by apply lookup_seqZ in H as [-> _]. }
  split; [|split; [|split; [|split]]].
  - apply generate_dates_Ok. exists [], ∅. rewrite Hrs.
    split; [done|]. split; [done|]. split.
    + rewrite filter_all.
      * unfold range, Date.days_between. rewrite fmap_add_seqZ. f_equal. lia.
      * apply Forall_forall. intros d _. split; [apply not_elem_of_nil|].
        apply not_elem_of_empty.
    + by apply select_dates_range.
  - rewrite length_seqZ. unfold Date.days_between. lia.
  - rewrite lookup_seqZ_lt by lia. f_equal. lia.
  - intros i a b Ha Hb. apply Hlk in Ha, Hb. lia.
  - intros i j a b Hij Ha Hb. apply Hlk in Ha, Hb. lia.
Qed.

Lemma generate_no_exclusions_witness :
  ∃ out,
    _generate_dates self0 738886 738892 [] = Ok out
    ∧ Z.of_nat (length out) = Date.days_between 738892 738886 + 1
    ∧ out !! 0%nat = Some 738886
    ∧ (∀ i a b, out !! i = Some a → out !! S i = Some b → b = a + 1)
    ∧ (∀ i j a b, (i < j)%nat → out !! i = Some a → out !! j = Some b → a < b).
Proof.
  apply (generate_no_exclusions self0 738886 738892).
  - unfold Date.valid, Date.MINORD, Date.MAXORD. lia.
  - unfold Date.valid, Date.MINORD, Date.MAXORD. lia.
  - lia.
  - reflexivity.
Defined.

(** C2. No date returned by [_generate_dates] falls on a weekday whose
    canonical name (Monday = 0 ... Sunday = 6) is, up to letter case, a member
    of the set of excluded weekdays. *)
Theorem generate_excludes_weekdays (self : WordDateGenerator) (s e : Z)
    (days : list string) (out : list Z) (d : Z) (day : string) :
  _generate_dates self s e days = Ok out →
  d ∈ out → day ∈ days → ¬ eq_nocase day (weekday_name d).
Proof.
  intros Hgen Hd Hday Heq.
  apply generate_dates_Ok in Hgen as (nums & X & Hn & _ & -> & _).
  apply list_elem_of_filter in Hd as [[Hw _] _]. apply Hw.
  apply (excluded_numbers_Ok _ _ Hn). exists day. split; [done|].
  pose proof (weekday_name_lookup d) as Hname.
  assert (weekday_name d ∈ weekday_names) as Hin
    by (apply list_elem_of_lookup; eauto).
  unfold eq_nocase in Heq. rewrite (lower_weekday_name _ Hin) in Heq.
  rewrite Heq. apply days_as_numbers_spec.
  split; [apply weekday_bounds | done].
Qed.

Lemma generate_excludes_weekdays_witness :
  ¬ eq_nocase "SUNDAY" (weekday_name 738890).
Proof.
  apply (generate_excludes_weekdays self0 738886 738892
           ["Saturday"; "SUNDAY"]
           [738886; 738887; 738888; 738889; 738890] 738890 "SUNDAY").
  - vm_compute. reflexivity.
  - apply (bool_decide_unpack _). vm_compute. exact I.
  - apply (bool_decide_unpack _). vm_compute. exact I.
Defined.

(** The example of the spec: the first week of 2024 without its weekend. *)
Example generate_first_week_2024 :
  _generate_dates self0 (Date.ymd2ord 2024 1 1) (Date.ymd2ord 2024 1 7)
                  ["saturday"; "sunday"]
  = Ok [Date.ymd2ord 2024 1 1; Date.ymd2ord 2024 1 2; Date.ymd2ord 2024 1 3;
        Date.ymd2ord 2024 1 4; Date.ymd2ord 2024 1 5].
Proof. vm_compute. reflexivity. Qed.

(** C3. No date returned by [_generate_dates] lies in the inclusive span
    [get_start_date() .. get_end_date()] of an excluded range; and an excluded
    range whose end is before its start excludes nothing: the result is the
    same as without that range. *)
Theorem generate_excludes_ranges (self : WordDateGenerator) (s e : Z)
    (days : list string) :
  (∀ out d r,
     _generate_dates self s e days = Ok out →
     d ∈ out → r ∈ excluded_date_ranges self →
     ¬ (get_start_date r ≤ d ≤ get_end_date r))
  ∧ (∀ l1 r l2,
       excluded_date_ranges self = l1 ++ r :: l2 →
       get_end_date r < get_start_date r →
       _generate_dates self s e days
       = _generate_dates (with_ranges self (l1 ++ l2)) s e days).
Proof.
  split.
  - intros out d r Hgen Hd Hr Hspan.
    apply generate_dates_Ok in Hgen as (nums & X & _ & HX & -> & _).
    apply list_elem_of_filter in Hd as [[_ HdX] _]. apply HdX.
    apply (excluded_dates_of_Ok _ _ HX). by exists r.
  - intros l1 r l2 Hrs Hr. unfold _generate_dates. simpl.
    by rewrite Hrs, (excluded_dates_of_skip l1 l2 r Hr).
Qed.

Lemma generate_excludes_ranges_witness :
  ¬ (738887 ≤ 738889 ≤ 738888)
  ∧ _generate_dates
      (with_ranges self0 [ {| get_start_date := 738888;
                              get_end_date := 738887 |} ])
      738886 738892 ["saturday"; "sunday"]
    = _generate_dates (with_ranges self0 []) 738886 738892
                      ["saturday"; "sunday"].
Proof.
  split.
  - apply (proj1 (generate_excludes_ranges
                    (with_ranges self0 [ {| get_start_date := 738887;
                                            get_end_date := 738888 |} ])
                    738886 738892 ["saturday"; "sunday"])
             [738886; 738889; 738890] 738889
             {| get_start_date := 738887; get_end_date := 738888 |}).
    + vm_compute. reflexivity.
    + apply (bool_decide_unpack _). vm_compute. exact I.
    + simpl. constructor.
  - apply (proj2 (generate_excludes_ranges
                    (with_ranges self0 [ {| get_start_date := 738888;
                                            get_end_date := 738887 |} ])
                    738886 738892 ["saturday"; "sunday"])
             [] {| get_start_date := 738888; get_end_date := 738887 |} []).
    + reflexivity.
    + simpl. lia.
Defined.

(** The example of the spec: the same week with 2024-01-03 excluded. *)
Example generate_first_week_2024_but_one :
  _generate_dates
    (with_ranges self0 [ {| get_start_date := Date.ymd2ord 2024 1 3;
                            get_end_date := Date.ymd2ord 2024 1 3 |} ])
    (Date.ymd2ord 2024 1 1) (Date.ymd2ord 2024 1 7) ["saturday"; "sunday"]
  = Ok [Date.ymd2ord 2024 1 1; Date.ymd2ord 2024 1 2; Date.ymd2ord 2024 1 4;
        Date.ymd2ord 2024 1 5].
Proof. vm_compute. reflexivity. Qed.

(** C4, as the claim has it, fails: with [end_date < start_date] and a set of
    excluded weekdays that holds an unknown name, [_generate_dates] raises
    [KeyError], because the names are looked up before the days are
    enumerated. *)
Lemma generate_reversed_unknown_weekday :
  738886 < 738892
  ∧ _generate_dates self0 738892 738886 ["funday"]
    = Raise (KeyError "funday").
Proof. split; [lia | vm_compute; reflexivity]. Qed.

(** C4, amended. For [end_date < start_date], every set of excluded weekdays
    whose members are weekday names (in any letter case) and every collection
    of excluded ranges, [_generate_dates] returns the empty list and raises
    nothing. *)
Theorem generate_reversed_empty (self : WordDateGenerator) (s e : Z)
    (days : list string) :
  e < s →
  (∀ day, day ∈ days → is_weekday_name day) →
  Forall valid_range (excluded_date_ranges self) →
  _generate_dates self s e days = Ok [].
Proof.
  intros Hlt Hdays Hrs.
  destruct (excluded_numbers_valid days Hdays) as [nums Hn].
  destruct (excluded_dates_of_valid _ Hrs) as [X HX].
  apply generate_dates_Ok. exists nums, X.
  unfold range, Date.days_between. rewrite seqZ_nil by lia.
  repeat split; done.
Qed.

Lemma generate_reversed_empty_witness :
  _generate_dates
    (with_ranges self0 [ {| get_start_date := 738887;
                            get_end_date := 738888 |} ])
    738892 738886 ["Saturday"; "SUNDAY"] = Ok [].
Proof.
  apply generate_reversed_empty.
  - lia.
  - intros day Hday.
    apply elem_of_cons in Hday as [->|Hday];
      [exists "saturday"; split; [|reflexivity];
       apply (bool_decide_unpack _); vm_compute; exact I|].
    apply elem_of_cons in Hday as [->|Hday];
      [exists "sunday"; split; [|reflexivity];
       apply (bool_decide_unpack _); vm_compute; exact I|].
    by apply elem_of_nil in Hday.
  - repeat constructor; simpl;
      unfold Date.valid, Date.MINORD, Date.MAXORD; lia.
Defined.

(** C8. When the set of excluded weekdays holds a string that is not, up to
    letter case, one of the seven weekday names, [_generate_dates] raises
    [KeyError] (the spec's InvalidWeekdayName) for the lower-cased form of
    such a string, whatever the dates and the excluded ranges are.  When
    every member is a weekday name in some letter case, no [KeyError] is
    raised, and for dates and ranges of dates a list is returned. *)
Theorem generate_weekday_validation (self : WordDateGenerator) (s e : Z)
    (days : list string) :
  ((∃ day, day ∈ days ∧ ¬ is_weekday_name day) →
   ∃ bad, bad ∈ days ∧ ¬ is_weekday_name bad
          ∧ _generate_dates self s e days = Raise (KeyError (lower bad)))
  ∧ ((∀ day, day ∈ days → is_weekday_name day) →
     (∀ key, _generate_dates self s e days ≠ Raise (KeyError key))
     ∧ (Date.valid s → Date.valid e →
        Forall valid_range (excluded_date_ranges self) →
        ∃ out, _generate_dates self s e days = Ok out)).
Proof.
  split.
  - intros (day & Hin & Hday).
    destruct (excluded_numbers_invalid days day Hin Hday)
      as (bad & Hbad & Hnot & Hraise).
    exists bad. split; [done|]. split; [done|].
    unfold _generate_dates. by rewrite Hraise.
  - intros Hdays. destruct (excluded_numbers_valid days Hdays) as [nums Hn].
    split.
    + intros key H. unfold _generate_dates in H. rewrite Hn in H. simpl in H.
      apply bind_Raise in H as [H|(X & _ & H)].
      * by apply excluded_dates_of_Raise in H.
      * by apply select_dates_Raise in H.
    + intros Hs He Hrs. destruct (excluded_dates_of_valid _ Hrs) as [X HX].
      eexists. apply generate_dates_Ok. exists nums, X.
      repeat split; try done. by apply select_dates_range.
Qed.

Lemma generate_weekday_validation_witness :
  (∃ bad, bad ∈ ["Monday"; "Funday"] ∧ ¬ is_weekday_name bad
          ∧ _generate_dates self0 738886 738892 ["Monday"; "Funday"]
            = Raise (KeyError (lower bad)))
  ∧ (∀ key, _generate_dates self0 738886 738892 ["FRIDAY"]
            ≠ Raise (KeyError key)).
Proof.
  split.
  - apply (proj1 (generate_weekday_validation self0 738886 738892
                    ["Monday"; "Funday"])).
    exists "Funday". split.
    + apply (bool_decide_unpack _). vm_compute. exact I.
    + intros Hw. apply is_weekday_name_lookup in Hw as [k Hk].
      vm_compute in Hk. discriminate.
  - apply (proj2 (generate_weekday_validation self0 738886 738892
                    ["FRIDAY"])).
    intros day Hday. apply elem_of_cons in Hday as [->|Hday].
    + exists "friday". split; [|reflexivity].
      apply (bool_decide_unpack _). vm_compute. exact I.
    + by apply elem_of_nil in Hday.
Defined.

(** ** Indexing a row *)

Lemma py_index_nonneg (n : nat) (c : Z) :
  0 ≤ c < Z.of_nat n → py_index n c = Ok (Z.to_nat c).
Proof. intros H. unfold py_index. by rewrite decide_True. Qed.

Lemma py_index_neg (n : nat) (c : Z) :
  - Z.of_nat n ≤ c < 0 → py_index n c = Ok (Z.to_nat (Z.of_nat n + c)).
Proof.
  intros H. unfold py_index.
  rewrite decide_False by lia. by rewrite decide_True.
Qed.

Lemma py_index_ge (n : nat) (c : Z) :
  Z.of_nat n ≤ c → py_index n c = Raise IndexError.
Proof. intros H. unfold py_index. by rewrite !decide_False by lia. Qed.

Lemma py_index_Ok_lt (n : nat) (c : Z) (j : nat) :
  py_index n c = Ok j → (j < n)%nat.
Proof.
  unfold py_index. repeat case_decide; intros [= <-]; lia.
Qed.

(** ** The table binder *)

Section TableBinderFacts.
Variable strftime : string → date → option string.

#[local] Abbreviation bind := (bind strftime).

Lemma bind_nil_rows dates c fmt : bind dates [] c fmt = ([], Ok ()).
Proof. by destruct dates. Qed.

Lemma bind_nil_dates rows c fmt : bind [] rows c fmt = (rows, Ok ()).
Proof. by destruct rows. Qed.

Lemma bind_cons d dates r rows c fmt :
  bind (d :: dates) (r :: rows) c fmt =
  match strftime fmt d with
  | None => (r :: rows, Raise ValueError)
  | Some text =>
      match py_index (length r) c with
      | Raise e => (r :: rows, Raise e)
      | Ok j => let '(rows', res) := bind dates rows c fmt in
                (<[j := text]> r :: rows', res)
      end
  end.
Proof. reflexivity. Qed.

(** When every paired date is rendered and every paired row has the
    column, the loop runs to its end and writes each paired row. *)
Lemma bind_success dates rows c fmt :
  (∀ i r d, rows !! i = Some r → dates !! i = Some d →
            is_Some (strftime fmt d)
            ∧ ∃ j, py_index (length r) c = Ok j) →
  ∃ rows',
    bind dates rows c fmt = (rows', Ok ())
    ∧ length rows' = length rows
    ∧ (∀ i r d, rows !! i = Some r → dates !! i = Some d →
         ∃ text j, strftime fmt d = Some text
                   ∧ py_index (length r) c = Ok j
                   ∧ rows' !! i = Some (<[j := text]> r))
    ∧ (∀ i, (length dates ≤ i)%nat → rows' !! i = rows !! i).
Proof.
  revert dates. induction rows as [|r rows IH]; intros dates H.
  - exists []. rewrite bind_nil_rows. repeat split; done.
  - destruct dates as [|d dates].
    + exists (r :: rows). rewrite bind_nil_dates. repeat split; done.
    + destruct (H 0%nat r d eq_refl eq_refl) as [[text Ht] [j Hj]].
      destruct (IH dates) as (rows' & Hb & Hlen & Hw & Hu).
      { intros i r' d' Hr Hd. by apply (H (S i)). }
      exists (<[j := text]> r :: rows').
      rewrite bind_cons, Ht, Hj, Hb. split; [done|].
      split; [simpl; by rewrite Hlen|]. split.
      * intros [|i] r' d' Hr Hd; simpl in *.
        -- injection Hr as <-. injection Hd as <-. by exists text, j.
        -- by apply Hw.
      * intros [|i] Hi; simpl in *; [lia|]. apply Hu. lia.
Qed.

(** What the loop leaves as it was, however it ends. *)
Lemma bind_frame dates rows c fmt :
  length (bind dates rows c fmt).1 = length rows
  ∧ ∀ i r r',
      rows !! i = Some r → (bind dates rows c fmt).1 !! i = Some r' →
      length r' = length r
      ∧ ((length dates ≤ i)%nat → r' = r)
      ∧ (∀ j, py_index (length r) c ≠ Ok j → r' !! j = r !! j).
Proof.
  revert dates. induction rows as [|r0 rows IH]; intros dates.
  - rewrite bind_nil_rows. split; [done|]. by intros [|i] r r' Hr.
  - destruct dates as [|d dates].
    { rewrite bind_nil_dates. split; [done|].
      intros i r r' Hr Hr'. cbn [fst] in Hr'.
      assert (r' = r) as -> by congruence. done. }
    rewrite bind_cons.
    destruct (strftime fmt d) as [text|].
    2:{ split; [done|]. intros i r r' Hr Hr'. cbn [fst] in Hr'.
        assert (r' = r) as -> by congruence. done. }
    destruct (py_index (length r0) c) as [j0|e] eqn:Hj0.
    2:{ split; [done|]. intros i r r' Hr Hr'. cbn [fst] in Hr'.
        assert (r' = r) as -> by congruence. done. }
    destruct (IH dates) as [Hlen Hrows].
    destruct (bind dates rows c fmt) as [rows' res]. simpl in *.
    split; [by rewrite Hlen|].
    intros [|i] r r' Hr Hr'; simpl in *.
    + injection Hr as <-. injection Hr' as <-.
      split; [by rewrite length_insert|]. split; [lia|].
      intros j Hj. apply list_lookup_insert_ne. congruence.
    + destruct (Hrows i r r' Hr Hr') as (Hl & Hu & Hc).
      split; [done|]. split; [|done]. intros Hi. apply Hu. lia.
Qed.

(** The loop over two sequences put end to end: when the first parts are
    of the same length and are bound without an exception, the loop goes
    on with the second parts and the rows of the first part keep what was
    written to them. *)
Lemma bind_app ds1 ds2 rs1 rs2 rs1' c fmt :
  length ds1 = length rs1 →
  bind ds1 rs1 c fmt = (rs1', Ok ()) →
  bind (ds1 ++ ds2) (rs1 ++ rs2) c fmt =
  (rs1' ++ (bind ds2 rs2 c fmt).1, (bind ds2 rs2 c fmt).2).
Proof.
  revert ds1 rs1'. induction rs1 as [|r rs1 IH]; intros ds1 rs1' Hlen Hb.
  - destruct ds1; [|done]. simpl in *. injection Hb as <-.
    by destruct (bind ds2 rs2 c fmt).
  - destruct ds1 as [|d ds1]; [done|]. simpl in Hlen.
    rewrite <- !app_comm_cons, bind_cons. rewrite bind_cons in Hb.
    destruct (strftime fmt d) as [text|]; [|done].
    destruct (py_index (length r) c) as [j|e]; [|done].
    destruct (bind ds1 rs1 c fmt) as [rs1'' res1] eqn:E.
    injection Hb as <- ->.
    rewrite (IH ds1 rs1'') by (done || lia). done.
Qed.

Lemma bind_Raise_IndexError dates rows c fmt :
  (bind dates rows c fmt).2 = Raise IndexError →
  ∃ r, r ∈ rows ∧ py_index (length r) c = Raise IndexError.
Proof.
  revert dates. induction rows as [|r rows IH]; intros dates.
  - by rewrite bind_nil_rows.
  - destruct dates as [|d dates]; [by rewrite bind_nil_dates|].
    rewrite bind_cons. destruct (strftime fmt d) as [text|]; [|done].
    destruct (py_index (length r) c) as [j|e] eqn:Hj.
    + specialize (IH dates).
      destruct (bind dates rows c fmt) as [rows' res]. simpl in *.
      intros H. destruct (IH H) as (r' & Hin & Hr').
      exists r'. split; [by right | done].
    + simpl. intros [= ->]. exists r. split; [left | done].
Qed.

End TableBinderFacts.

(** ** Properties of the table binder *)

Section TableBinderClaims.
Variable strftime : string → date → option string.

#[local] Abbreviation bind := (bind strftime).

(** C5, amended. For a column index that is non-negative and within each
    paired row, and a template that the formatting primitive renders for
    each paired date, the loop ends without an exception and writes to exactly
    [min(len(dates), len(rows))] rows: for each [i] below that bound, the
    cell at the column of row [i] receives the rendering of the [i]-th
    date; the rows from that bound on are as they were, and the dates from
    that bound on are not used. *)
Theorem bind_writes_min (dates : list date) (rows : table) (c : Z)
    (fmt : string) :
  Forall (fun r : row => 0 ≤ c < Z.of_nat (length r))
         (take (length dates) rows) →
  Forall (fun d => is_Some (strftime fmt d)) (take (length rows) dates) →
  ∃ rows',
    bind dates rows c fmt = (rows', Ok ())
    ∧ length rows' = length rows
    ∧ (∀ i, (i < min (length dates) (length rows))%nat →
         ∃ r d text,
           rows !! i = Some r ∧ dates !! i = Some d
           ∧ strftime fmt d = Some text
           ∧ rows' !! i = Some (<[Z.to_nat c := text]> r)
           ∧ <[Z.to_nat c := text]> r !! Z.to_nat c = Some text)
    ∧ (∀ i, (min (length dates) (length rows) ≤ i)%nat →
         rows' !! i = rows !! i).
Proof.
  intros Hcol Hfmt.
  destruct (bind_success strftime dates rows c fmt)
    as (rows' & Hb & Hlen & Hw & Hu).
  { intros i r d Hr Hd.
    pose proof (lookup_lt_Some _ _ _ Hr) as Hi.
    pose proof (lookup_lt_Some _ _ _ Hd) as Hi'. split.
    - apply (Forall_lookup_1 _ _ i d Hfmt). by rewrite lookup_take_lt.
    - exists (Z.to_nat c). apply py_index_nonneg.
      apply (Forall_lookup_1 _ _ i r Hcol). by rewrite lookup_take_lt. }
  exists rows'. split; [done|]. split; [done|]. split.
  - intros i Hi.
    destruct (lookup_lt_is_Some_2 rows i) as [r Hr]; [lia|].
    destruct (lookup_lt_is_Some_2 dates i) as [d Hd]; [lia|].
    destruct (Hw i r d Hr Hd) as (text & j & Ht & Hj & Hrow).
    assert (0 ≤ c < Z.of_nat (length r)) as Hc.
    { apply (Forall_lookup_1 _ _ i r Hcol).
      rewrite lookup_take_lt; [done | lia]. }
    rewrite (py_index_nonneg _ _ Hc) in Hj. injection Hj as <-.
    exists r, d, text. repeat split; try done.
    apply list_lookup_insert_eq. lia.
  - intros i Hi. destruct (decide (length dates ≤ i)%nat) as [Hd|Hd].
    + by apply Hu.
    + rewrite (lookup_ge_None_2 rows i) by lia.
      apply lookup_ge_None_2. lia.
Qed.

(** C6, amended. For a non-empty sequence of dates, a non-empty sequence of
    rows of [n] cells each, a column index [>= n] and a template that the
    formatting primitive renders for the first date, the loop raises
    [IndexError] (the spec's ColumnIndexError) at its first write, and no
    row is written.  The failure is not undone: when the first row without
    the column comes after rows that have it, those rows keep what was
    written to them and the rows from the failing one on are as they
    were. *)
Theorem bind_column_out_of_range (c : Z) (fmt : string) :
  (∀ n d dates r rows,
     Forall (fun r' : row => length r' = n) (r :: rows) →
     Z.of_nat n ≤ c →
     is_Some (strftime fmt d) →
     bind (d :: dates) (r :: rows) c fmt = (r :: rows, Raise IndexError))
  ∧ (∀ ds1 rs1 rs1' d ds2 r rs2,
       length ds1 = length rs1 →
       bind ds1 rs1 c fmt = (rs1', Ok ()) →
       is_Some (strftime fmt d) →
       Z.of_nat (length r) ≤ c →
       bind (ds1 ++ d :: ds2) (rs1 ++ r :: rs2) c fmt
       = (rs1' ++ r :: rs2, Raise IndexError)).
Proof.
  split.
  - intros n d dates r rows Hn Hc [text Ht].
    rewrite bind_cons, Ht. inversion Hn as [|? ? Hr _]; subst.
    by rewrite (py_index_ge _ _ Hc).
  - intros ds1 rs1 rs1' d ds2 r rs2 Hlen Hb [text Ht] Hc.
    rewrite (bind_app strftime ds1 (d :: ds2) rs1 (r :: rs2) rs1' c fmt
               Hlen Hb).
    by rewrite bind_cons, Ht, (py_index_ge _ _ Hc).
Qed.

(** C7. Whatever the loop is given and however it ends, the table keeps
    its number of rows, each row keeps its number of cells, the rows that
    are not paired with a date are as they were, and in a paired row every
    cell other than the one the column index designates is as it was.  The
    other fields of the generator are left as they were by
    [add_dates_to_table]. *)
Theorem bind_frame_effect (dates : list date) (rows : table) (c : Z)
    (fmt : string) :
  length (bind dates rows c fmt).1 = length rows
  ∧ (∀ i r r',
       rows !! i = Some r → (bind dates rows c fmt).1 !! i = Some r' →
       length r' = length r
       ∧ ((min (length dates) (length rows) ≤ i)%nat → r' = r)
       ∧ (∀ j, py_index (length r) c ≠ Ok j → r' !! j = r !! j))
  ∧ (∀ self,
       let self' := (add_dates_to_table strftime self).1 in
       path self' = path self
       ∧ start_date self' = start_date self
       ∧ end_date self' = end_date self
       ∧ date_format self' = date_format self
       ∧ excluded_days self' = excluded_days self
       ∧ excluded_date_ranges self' = excluded_date_ranges self
       ∧ date_column self' = date_column self).
Proof.
  destruct (bind_frame strftime dates rows c fmt) as [Hlen Hrows].
  split; [done|]. split.
  - intros i r r' Hr Hr'. destruct (Hrows i r r' Hr Hr') as (Hl & Hu & Hc).
    split; [done|]. split; [|done]. intros Hi. apply Hu.
    pose proof (lookup_lt_Some _ _ _ Hr). lia.
  - intros self. unfold add_dates_to_table.
    destruct (_generate_dates self (start_date self) (end_date self)
                (excluded_days self)) as [ds|e]; [|done].
    by destruct (bind ds (selected_table self) (date_column self)
                   (date_format self)).
Qed.

(** C9, amended. The template is not looked at when the generator is
    configured: [__init__] stores it as it is given, and raises for one
    template exactly what it raises for any other.  A template that the
    formatting primitive rejects for the first date makes the loop raise
    [ValueError] (the spec's FormatError) when there is a first pair of a
    row and a date, before the column index is used and with no row
    written.  A template that is accepted reaches the primitive unchanged:
    the text written is what the primitive returns for it. *)
Theorem bind_invalid_template (fmt : string) :
  (∀ is_file tables today p sd ed days rs col,
     (∀ self, init is_file tables today p sd ed fmt days rs col = Ok self →
              date_format self = fmt)
     ∧ (∀ fmt' e, init is_file tables today p sd ed fmt days rs col = Raise e →
                  init is_file tables today p sd ed fmt' days rs col = Raise e))
  ∧ (∀ d dates r rows c,
       strftime fmt d = None →
       bind (d :: dates) (r :: rows) c fmt = (r :: rows, Raise ValueError))
  ∧ (∀ d dates r rows c text j,
       strftime fmt d = Some text →
       py_index (length r) c = Ok j →
       ∃ rows' res,
         bind (d :: dates) (r :: rows) c fmt = (<[j := text]> r :: rows', res)).
Proof.
  split; [|split].
  - intros is_file tables today p sd ed days rs col. unfold init.
    destruct is_file; simpl; [|by split].
    destruct (match ed with Some e => mret e | None => Date.add_days today 7 end)
      as [e0|e0]; simpl; [|by split].
    destruct (tables !! 0%nat); [|by split].
    split; [by intros self [= <-] | done].
  - intros d dates r rows c Ht. by rewrite bind_cons, Ht.
  - intros d dates r rows c text j Ht Hj. rewrite bind_cons, Ht, Hj.
    destruct (bind dates rows c fmt) as [rows' res]. by exists rows', res.
Qed.

(** C10, amended. For rows of [n] cells each and a column index [c] with
    [-n <= c < 0], the loop never raises [IndexError]; when the template is
    rendered for each paired date it raises nothing and writes each
    rendering into the cell at position [n + c] of its row, so that [-1]
    designates the last cell.  [__init__] stores a negative column index as
    it is given. *)
Theorem bind_negative_column (n : nat) (c : Z) (dates : list date)
    (rows : table) (fmt : string) :
  Forall (fun r : row => length r = n) rows →
  - Z.of_nat n ≤ c < 0 →
  (bind dates rows c fmt).2 ≠ Raise IndexError
  ∧ (Forall (fun d => is_Some (strftime fmt d)) (take (length rows) dates) →
     ∃ rows',
       bind dates rows c fmt = (rows', Ok ())
       ∧ ∀ i r d, rows !! i = Some r → dates !! i = Some d →
           ∃ text, strftime fmt d = Some text
                   ∧ rows' !! i = Some (<[Z.to_nat (Z.of_nat n + c) := text]> r)
                   ∧ <[Z.to_nat (Z.of_nat n + c) := text]> r
                       !! Z.to_nat (Z.of_nat n + c) = Some text)
  ∧ (∀ is_file tables today p sd ed f days rs self,
       init is_file tables today p sd ed f days rs c = Ok self →
       date_column self = c).
Proof.
  intros Hn Hc.
  assert (∀ r, r ∈ rows → py_index (length r) c
                           = Ok (Z.to_nat (Z.of_nat n + c))) as Hidx.
  { intros r Hr. rewrite (proj1 (Forall_forall _ _) Hn r Hr).
    by apply py_index_neg. }
  split; [|split].
  - intros H. apply bind_Raise_IndexError in H as (r & Hr & H).
    rewrite (Hidx r Hr) in H. discriminate.
  - intros Hfmt.
    destruct (bind_success strftime dates rows c fmt)
      as (rows' & Hb & Hlen & Hw & Hu).
    { intros i r d Hr Hd. pose proof (lookup_lt_Some _ _ _ Hr) as Hi. split.
      - apply (Forall_lookup_1 _ _ i d Hfmt). by rewrite lookup_take_lt.
      - eexists. apply Hidx. apply list_elem_of_lookup. eauto. }
    exists rows'. split; [done|]. intros i r d Hr Hd.
    destruct (Hw i r d Hr Hd) as (text & j & Ht & Hj & Hrow).
    assert (r ∈ rows) as Hin by (apply list_elem_of_lookup; eauto).
    rewrite (Hidx r Hin) in Hj. injection Hj as <-.
    exists text. split; [done|]. split; [done|].
    apply list_lookup_insert_eq.
    rewrite (proj1 (Forall_forall _ _) Hn r Hin). lia.
  - intros is_file tables today p sd ed f days rs self. unfold init.
    destruct is_file; simpl; [|done].
    destruct (match ed with Some e => mret e | None => Date.add_days today 7 end)
      as [e0|e0]; simpl; [|done].
    destruct (tables !! 0%nat); [|done]. by intros [= <-].
Qed.

End TableBinderClaims.

(** ** The binder on concrete tables *)

(** [add_dates_to_table] on the first week of 2024 without its weekend: the
    five rows receive Monday to Friday in column 1. *)
Example add_dates_first_week_2024 :
  selected_table (add_dates_to_table weekday_strftime self0).1
  = [["a0"; "Mon. week 1"; "c0"]; ["a1"; "Tue. week 1"; "c1"];
     ["a2"; "Wed. week 1"; "c2"]; ["a3"; "Thu. week 1"; "c3"];
     ["a4"; "Fri. week 1"; "c4"]]
  ∧ (add_dates_to_table weekday_strftime self0).2 = Ok ().
Proof. split; vm_compute; reflexivity. Qed.

(** The example of the spec: three dates bound to column 1 of a table of
    five rows. *)
Example bind_three_dates :
  bind weekday_strftime [738886; 738887; 738888] table0 1 format0
  = ([["a0"; "Mon. week 1"; "c0"]; ["a1"; "Tue. week 1"; "c1"];
      ["a2"; "Wed. week 1"; "c2"]; ["a3"; "b3"; "c3"]; ["a4"; "b4"; "c4"]],
     Ok ()).
Proof. vm_compute. reflexivity. Qed.

(** C5, as the claim has it, fails: with a column index within each row and
    a template that the formatting primitive rejects, the loop raises
    [ValueError] at the first pair and writes to no row, although two rows
    are paired with a date. *)
Lemma bind_writes_min_rejected_template :
  0 ≤ 1 < Z.of_nat (length ["a0"; "b0"; "c0"])
  ∧ weekday_strftime "%" 738886 = None
  ∧ bind weekday_strftime [738886; 738887] table0 1 "%"
    = (table0, Raise ValueError).
Proof. split; [simpl; lia|]. split; vm_compute; reflexivity. Qed.

Lemma bind_writes_min_witness :
  ∃ rows',
    bind weekday_strftime [738886; 738887] table0 1 format0
    = (rows', Ok ())
    ∧ length rows' = length table0
    ∧ (∀ i, (i < min 2 (length table0))%nat →
         ∃ r d text,
           table0 !! i = Some r
           ∧ [738886; 738887] !! i = Some d
           ∧ weekday_strftime format0 d = Some text
           ∧ rows' !! i = Some (<[Z.to_nat 1 := text]> r)
           ∧ <[Z.to_nat 1 := text]> r !! Z.to_nat 1 = Some text)
    ∧ (∀ i, (min 2 (length table0) ≤ i)%nat →
         rows' !! i = table0 !! i).
Proof.
  apply (bind_writes_min weekday_strftime [738886; 738887]
           table0 1 format0).
  - simpl. repeat (constructor; [simpl; lia|]). constructor.
  - simpl. repeat (constructor; [by eexists|]). constructor.
Defined.

(** C6, as the claim has it, fails: with rows of three cells and column index
    10, the loop ends without an exception when there is no date to pair a
    row with, and raises [ValueError] rather than [IndexError] when the
    template is rejected, as the text is rendered before the cell is looked
    up. *)
Lemma bind_column_out_of_range_no_error :
  bind weekday_strftime [] table0 10 format0
  = (table0, Ok ())
  ∧ bind weekday_strftime [738886] table0 10 "%"
    = (table0, Raise ValueError).
Proof. split; vm_compute; reflexivity. Qed.

Lemma bind_column_out_of_range_witness :
  bind weekday_strftime [738886; 738887] table0 10 format0
  = (table0, Raise IndexError)
  ∧ bind weekday_strftime ([738886] ++ 738887 :: [738888])
         ([["a0"; "b0"; "c0"]] ++ ["a1"] :: [["a2"; "b2"; "c2"]]) 2 format0
    = ([["a0"; "b0"; "Mon. week 1"]] ++ ["a1"] :: [["a2"; "b2"; "c2"]],
       Raise IndexError).
Proof.
  split.
  - apply (proj1 (bind_column_out_of_range weekday_strftime 10 format0)
             3%nat).
    + repeat constructor.
    + lia.
    + by eexists.
  - apply (proj2 (bind_column_out_of_range weekday_strftime 2 format0)).
    + reflexivity.
    + vm_compute. reflexivity.
    + by eexists.
    + simpl. lia.
Defined.

Lemma bind_frame_effect_witness :
  length ["a1"; "Tue. week 1"; "c1"] = length ["a1"; "b1"; "c1"]
  ∧ ((min 2 (length table0) ≤ 1)%nat →
     ["a1"; "Tue. week 1"; "c1"] = ["a1"; "b1"; "c1"])
  ∧ (∀ j, py_index (length ["a1"; "b1"; "c1"]) 1 ≠ Ok j →
          ["a1"; "Tue. week 1"; "c1"] !! j = ["a1"; "b1"; "c1"] !! j).
Proof.
  apply (proj1 (proj2 (bind_frame_effect weekday_strftime [738886; 738887]
                         table0 1 format0)) 1%nat).
  - reflexivity.
  - vm_compute. reflexivity.
Defined.

(** C9, as the claim has it, fails: a template that the formatting primitive
    rejects for every date raises nothing when no row is paired with a date,
    as no cell is rendered. *)
Lemma bind_invalid_template_no_error :
  (∀ d, weekday_strftime "%" d = None)
  ∧ bind weekday_strftime [] table0 1 "%"
    = (table0, Ok ()).
Proof. split; [intros d|]; vm_compute; reflexivity. Qed.

Lemma bind_invalid_template_witness :
  bind weekday_strftime [738886; 738887] table0 10 "%"
  = (table0, Raise ValueError)
  ∧ ∃ rows' res,
      bind weekday_strftime [738886; 738887] table0 1 format0
      = (<[1%nat := "Mon. week 1"]> ["a0"; "b0"; "c0"] :: rows', res).
Proof.
  split.
  - apply (proj1 (proj2 (bind_invalid_template weekday_strftime "%"))).
    vm_compute. reflexivity.
  - apply (proj2 (proj2 (bind_invalid_template weekday_strftime format0))).
    + vm_compute. reflexivity.
    + vm_compute. reflexivity.
Defined.

(** C10, as the claim has it, fails: with rows of three cells and column
    index -1, the loop does raise when the formatting primitive rejects the
    template, [ValueError] and not [IndexError], and writes to no row. *)
Lemma bind_negative_column_rejected_template :
  - Z.of_nat 3 ≤ -1 < 0
  ∧ Forall (fun r : row => length r = 3%nat) table0
  ∧ bind weekday_strftime [738886] table0 (-1) "%"
    = (table0, Raise ValueError).
Proof.
  split; [lia|]. split; [repeat constructor | vm_compute; reflexivity].
Qed.

Lemma bind_negative_column_witness :
  (bind weekday_strftime [738886; 738887] table0 (-1) format0).2
  ≠ Raise IndexError
  ∧ ∃ rows',
      bind weekday_strftime [738886; 738887] table0 (-1) format0
      = (rows', Ok ())
      ∧ ∀ i r d,
          table0 !! i = Some r →
          [738886; 738887] !! i = Some d →
          ∃ text, weekday_strftime format0 d = Some text
                  ∧ rows' !! i = Some (<[Z.to_nat (Z.of_nat 3 + -1) := text]> r)
                  ∧ <[Z.to_nat (Z.of_nat 3 + -1) := text]> r
                      !! Z.to_nat (Z.of_nat 3 + -1) = Some text.
Proof.
  pose proof (bind_negative_column weekday_strftime 3 (-1) [738886; 738887]
                table0 format0) as H.
  destruct H as (H1 & H2 & _).
  - repeat constructor.
  - lia.
  - split; [exact H1|]. apply H2. simpl.
    repeat (constructor; [by eexists|]). constructor.
Defined.

(** ** More on the generated schedule *)

Lemma fmap_add_range (s n : Z) : Z.add s <$> range n = seqZ s n.
Proof. unfold range. rewrite fmap_add_seqZ. f_equal. lia. Qed.

Lemma StronglySorted_seqZ (m n : Z) : StronglySorted Z.lt (seqZ m n).
Proof.
  unfold seqZ. generalize (Z.to_nat n) as k. generalize 0%nat as a.
  intros a k. revert a. induction k as [|k IH]; intros a; simpl.
  - constructor.
  - constructor; [apply IH|]. apply Forall_fmap, Forall_forall.
    intros i Hi. apply elem_of_seq in Hi. simpl. lia.
Qed.

Lemma StronglySorted_filter {A} (R : relation A) (P : A → Prop)
    `{∀ x, Decision (P x)} (l : list A) :
  StronglySorted R l → StronglySorted R (filter P l).
Proof.
  induction 1 as [|x l Hl IH Hx]; [constructor|].
  rewrite filter_cons. case_decide; [|done].
  constructor; [done|]. apply Forall_forall. intros y Hy.
  apply list_elem_of_filter in Hy as [_ Hy].
  by apply (proj1 (Forall_forall _ _) Hx).
Qed.

Lemma StronglySorted_lookup_lt (l : list Z) (i j : nat) (a b : Z) :
  StronglySorted Z.lt l → (i < j)%nat →
  l !! i = Some a → l !! j = Some b → a < b.
Proof.
  intros Hl. revert i j. induction Hl as [|x l Hl IH Hx]; intros i j Hij.
  - by rewrite lookup_nil.
  - destruct j as [|j]; [lia|]. destruct i as [|i]; simpl.
    + intros [= <-] Hb. apply (proj1 (Forall_forall _ _) Hx).
      apply list_elem_of_lookup. eauto.
    + apply IH. lia.
Qed.

(** For dates, names of weekdays and ranges of dates, the generator returns
    the filtered days of [start_date .. end_date]. *)
Lemma generate_dates_valid (self : WordDateGenerator) (s e : Z)
    (days : list string) :
  Date.valid s → Date.valid e →
  (∀ day, day ∈ days → is_weekday_name day) →
  Forall valid_range (excluded_date_ranges self) →
  ∃ nums X,
    mapM weekday_number days = Ok nums
    ∧ excluded_dates_of (excluded_date_ranges self) = Ok X
    ∧ _generate_dates self s e days
      = Ok (filter (kept nums X) (seqZ s (e - s + 1))).
Proof.
  intros Hs He Hdays Hrs.
  destruct (excluded_numbers_valid days Hdays) as [nums Hn].
  destruct (excluded_dates_of_valid _ Hrs) as [X HX].
  exists nums, X. split; [done|]. split; [done|].
  apply generate_dates_Ok. exists nums, X.
  split; [done|]. split; [done|]. split.
  - by rewrite fmap_add_range.
  - by apply select_dates_range.
Qed.

Lemma generate_dates_Ok_seqZ (self : WordDateGenerator) (s e : Z)
    (days : list string) (out : list Z) :
  _generate_dates self s e days = Ok out →
  ∃ nums X,
    mapM weekday_number days = Ok nums
    ∧ excluded_dates_of (excluded_date_ranges self) = Ok X
    ∧ out = filter (kept nums X) (seqZ s (e - s + 1))
    ∧ (∀ d, s ≤ d ≤ e → Date.valid d).
Proof.
  intros H. apply generate_dates_Ok in H as (nums & X & Hn & HX & -> & Hv).
  exists nums, X. rewrite fmap_add_range.
  split; [done|]. split; [done|]. split; [done|].
  intros d Hd. replace d with (s + (d - s)) by lia.
  apply (proj1 (Forall_forall _ _) Hv). apply elem_of_range.
  unfold Date.days_between. lia.
Qed.

(** The weekday of a date is excluded exactly when a member of the set names
    it up to letter case. *)
Lemma weekday_excluded (days : list string) (nums : list Z) (d : Z) :
  mapM weekday_number days = Ok nums →
  Date.weekday d ∈ nums ↔ ∃ day, day ∈ days ∧ eq_nocase day (weekday_name d).
Proof.
  intros Hn. rewrite (excluded_numbers_Ok _ _ Hn).
  pose proof (weekday_name_lookup d) as Hname.
  assert (weekday_name d ∈ weekday_names) as Hin
    by (apply list_elem_of_lookup; eauto).
  split; intros (day & Hday & H); exists day; (split; [done|]).
  - apply days_as_numbers_spec in H as [_ H].
    unfold eq_nocase. rewrite (lower_weekday_name _ Hin). congruence.
  - unfold eq_nocase in H. rewrite (lower_weekday_name _ Hin) in H.
    rewrite H. apply days_as_numbers_spec.
    split; [apply weekday_bounds | done].
Qed.

(** X1. For dates, excluded weekdays that are weekday names and excluded
    ranges of dates, the generator returns exactly the days of
    [start_date .. end_date] that fall on no excluded weekday and in no
    excluded range: none of them is missing. *)
Theorem generate_membership (self : WordDateGenerator) (s e : Z)
    (days : list string) :
  Date.valid s → Date.valid e →
  (∀ day, day ∈ days → is_weekday_name day) →
  Forall valid_range (excluded_date_ranges self) →
  ∃ out,
    _generate_dates self s e days = Ok out
    ∧ ∀ d, d ∈ out ↔
        s ≤ d ≤ e
        ∧ (∀ day, day ∈ days → ¬ eq_nocase day (weekday_name d))
        ∧ (∀ r, r ∈ excluded_date_ranges self →
                ¬ (get_start_date r ≤ d ≤ get_end_date r)).
Proof.
  intros Hs He Hdays Hrs.
  destruct (generate_dates_valid self s e days Hs He Hdays Hrs)
    as (nums & X & Hn & HX & Hgen).
  eexists. split; [exact Hgen|]. intros d.
  rewrite list_elem_of_filter, elem_of_seqZ. unfold kept.
  rewrite (weekday_excluded days nums d Hn), (excluded_dates_of_Ok _ _ HX d).
  split.
  - intros [[Hw Hr] Hd]. split; [lia|]. split.
    + intros day Hday Heq. apply Hw. by exists day.
    + intros r Hin Hspan. apply Hr. by exists r.
  - intros (Hd & Hw & Hr). split; [|lia]. split.
    + intros (day & Hday & Heq). by apply (Hw day).
    + intros (r & Hin & Hspan). by apply (Hr r).
Qed.

Lemma generate_membership_witness :
  ∃ out,
    _generate_dates self0 738886 738892 ["Saturday"; "SUNDAY"] = Ok out
    ∧ ∀ d, d ∈ out ↔
        738886 ≤ d ≤ 738892
        ∧ (∀ day, day ∈ ["Saturday"; "SUNDAY"] →
                  ¬ eq_nocase day (weekday_name d))
        ∧ (∀ r, r ∈ excluded_date_ranges self0 →
                ¬ (get_start_date r ≤ d ≤ get_end_date r)).
Proof.
  apply (generate_membership self0 738886 738892 ["Saturday"; "SUNDAY"]).
  - unfold Date.valid, Date.MINORD, Date.MAXORD. lia.
  - unfold Date.valid, Date.MINORD, Date.MAXORD. lia.
  - intros day Hday.
    apply elem_of_cons in Hday as [->|Hday];
      [exists "saturday"; split; [|reflexivity];
       apply (bool_decide_unpack _); vm_compute; exact I|].
    apply elem_of_cons in Hday as [->|Hday];
      [exists "sunday"; split; [|reflexivity];
       apply (bool_decide_unpack _); vm_compute; exact I|].
    by apply elem_of_nil in Hday.
  - simpl. constructor.
Defined.

(** X2. Whatever is excluded, the dates that the generator returns are
    strictly ascending (so none is repeated), each lies in
    [start_date .. end_date], and there are at most
    [(end_date - start_date).days + 1] of them. *)
Theorem generate_ascending (self : WordDateGenerator) (s e : Z)
    (days : list string) (out : list Z) :
  _generate_dates self s e days = Ok out →
  (∀ i j a b, (i < j)%nat → out !! i = Some a → out !! j = Some b → a < b)
  ∧ (∀ d, d ∈ out → s ≤ d ≤ e)
  ∧ Z.of_nat (length out) ≤ Z.max 0 (Date.days_between e s + 1).
Proof.
  intros H. apply generate_dates_Ok_seqZ in H as (nums & X & _ & _ & -> & _).
  split; [|split].
  - intros i j a b. apply StronglySorted_lookup_lt.
    apply StronglySorted_filter, StronglySorted_seqZ.
  - intros d Hd. apply list_elem_of_filter in Hd as [_ Hd].
    apply elem_of_seqZ in Hd. lia.
  - transitivity (Z.of_nat (Z.to_nat (e - s + 1))).
    + apply Nat2Z.inj_le. rewrite <- (length_seqZ s). apply length_filter.
    + unfold Date.days_between. lia.
Qed.

Lemma generate_ascending_witness :
  (∀ i j a b, (i < j)%nat →
     [738886; 738889; 738890] !! i = Some a →
     [738886; 738889; 738890] !! j = Some b → a < b)
  ∧ (∀ d, d ∈ [738886; 738889; 738890] → 738886 ≤ d ≤ 738892)
  ∧ Z.of_nat (length [738886; 738889; 738890])
    ≤ Z.max 0 (Date.days_between 738892 738886 + 1).
Proof.
  apply (generate_ascending
           (with_ranges self0 [ {| get_start_date := 738887;
                                   get_end_date := 738888 |} ])
           738886 738892 ["saturday"; "sunday"]).
  vm_compute. reflexivity.
Defined.

Lemma generate_dates_Ok_intro (self : WordDateGenerator) (s e : Z)
    (days : list string) (nums : list Z) (X : gset Z) :
  mapM weekday_number days = Ok nums →
  excluded_dates_of (excluded_date_ranges self) = Ok X →
  (∀ d, s ≤ d ≤ e → Date.valid d) →
  _generate_dates self s e days
  = Ok (filter (kept nums X) (seqZ s (e - s + 1))).
Proof.
  intros Hn HX Hv. apply generate_dates_Ok. exists nums, X.
  split; [done|]. split; [done|]. split; [by rewrite fmap_add_range|].
  apply Forall_forall. intros i Hi. apply elem_of_range in Hi.
  unfold Date.days_between in Hi. apply Hv. lia.
Qed.

Lemma excluded_dates_of_is_Ok (rs : list DateRangeElement) :
  (∃ X, excluded_dates_of rs = Ok X) ↔
  ∀ r, r ∈ rs → ∃ ds, range_days r = Ok ds.
Proof.
  split.
  - intros [X HX] r Hr. destruct (range_days r) as [ds|e] eqn:E; [by exists ds|].
    exfalso. unfold excluded_dates_of in HX.
    destruct (mapM_raises range_days rs r e Hr E) as [e' He'].
    by rewrite He' in HX.
  - intros Hall. destruct (excluded_dates_of rs) as [X|e] eqn:E; [by exists X|].
    exfalso. unfold excluded_dates_of in E.
    apply bind_Raise in E as [E|(dss & _ & [=])].
    apply mapM_Raise in E as (r & Hr & E).
    destruct (Hall r Hr) as [ds Hds]. congruence.
Qed.

Lemma select_dates_ext (s : Z) (nums1 nums2 : list Z) (X1 X2 : gset Z)
    (idx : list Z) :
  (∀ d, kept nums1 X1 d ↔ kept nums2 X2 d) →
  select_dates s nums1 X1 idx = select_dates s nums2 X2 idx.
Proof.
  intros Hk. induction idx as [|i idx IH]; [done|].
  rewrite !select_dates_cons.
  destruct (Date.add_days s i) as [d|e]; simpl; [|done].
  rewrite IH. destruct (decide (kept nums1 X1 d)) as [H1|H1].
  - rewrite decide_True; [done | by apply Hk].
  - rewrite decide_False; [done|]. intros H2. by apply H1, Hk.
Qed.

Lemma excluded_dates_of_ext (rs1 rs2 : list DateRangeElement) :
  (∀ r, r ∈ rs1 ↔ r ∈ rs2) →
  excluded_dates_of rs1 = excluded_dates_of rs2.
Proof.
  intros Hset.
  destruct (excluded_dates_of rs1) as [X1|e1] eqn:E1,
           (excluded_dates_of rs2) as [X2|e2] eqn:E2.
  - f_equal. apply set_eq. intros d.
    rewrite (excluded_dates_of_Ok _ _ E1 d), (excluded_dates_of_Ok _ _ E2 d).
    split; intros (r & Hr & Hd); exists r; (split; [by apply Hset | done]).
  - exfalso.
    assert (∃ X, excluded_dates_of rs2 = Ok X) as [X HX]; [|congruence].
    apply excluded_dates_of_is_Ok. intros r Hr. apply Hset in Hr.
    revert r Hr. apply excluded_dates_of_is_Ok. by exists X1.
  - exfalso.
    assert (∃ X, excluded_dates_of rs1 = Ok X) as [X HX]; [|congruence].
    apply excluded_dates_of_is_Ok. intros r Hr. apply Hset in Hr.
    revert r Hr. apply excluded_dates_of_is_Ok. by exists X2.
  - apply excluded_dates_of_Raise in E1, E2. congruence.
Qed.

(** X3. The collection of excluded ranges is used as a set: two collections
    with the same members, in whatever order and however often each is
    repeated, give the same result. *)
Theorem generate_ranges_as_set (self1 self2 : WordDateGenerator) (s e : Z)
    (days : list string) :
  (∀ r, r ∈ excluded_date_ranges self1 ↔ r ∈ excluded_date_ranges self2) →
  _generate_dates self1 s e days = _generate_dates self2 s e days.
Proof.
  intros Hset. unfold _generate_dates.
  by rewrite (excluded_dates_of_ext _ _ Hset).
Qed.

Lemma generate_ranges_as_set_witness :
  _generate_dates
    (with_ranges self0
       [ {| get_start_date := 738887; get_end_date := 738888 |};
         {| get_start_date := 738890; get_end_date := 738890 |} ])
    738886 738892 ["saturday"]
  = _generate_dates
      (with_ranges self0
         [ {| get_start_date := 738890; get_end_date := 738890 |};
           {| get_start_date := 738887; get_end_date := 738888 |};
           {| get_start_date := 738890; get_end_date := 738890 |} ])
      738886 738892 ["saturday"].
Proof.
  apply generate_ranges_as_set. intros r. simpl.
  rewrite !elem_of_cons, !elem_of_nil. tauto.
Defined.

(** X4. The excluded weekdays are used up to letter case, order and
    repetition: two sets of weekday names with the same lower-cased members
    give the same result. *)
Theorem generate_weekdays_as_set (self : WordDateGenerator) (s e : Z)
    (days1 days2 : list string) :
  (∀ day, day ∈ days1 → is_weekday_name day) →
  (∀ x, x ∈ lower <$> days1 ↔ x ∈ lower <$> days2) →
  _generate_dates self s e days1 = _generate_dates self s e days2.
Proof.
  intros Hv1 Hset.
  assert (∀ day, day ∈ days2 → is_weekday_name day) as Hv2.
  { intros day Hday.
    assert (lower day ∈ lower <$> days1) as Hin
      by (apply Hset, list_elem_of_fmap; eauto).
    apply list_elem_of_fmap in Hin as (day1 & Heq & Hday1).
    apply is_weekday_name_lookup. rewrite Heq.
    by apply is_weekday_name_lookup, Hv1. }
  destruct (excluded_numbers_valid days1 Hv1) as [nums1 Hn1].
  destruct (excluded_numbers_valid days2 Hv2) as [nums2 Hn2].
  unfold _generate_dates. rewrite Hn1, Hn2. simpl.
  destruct (excluded_dates_of (excluded_date_ranges self)) as [X|err];
    [|done].
  simpl. apply select_dates_ext. intros d. unfold kept.
  assert (Date.weekday d ∈ nums1 ↔ Date.weekday d ∈ nums2) as Hiff; [|tauto].
  rewrite (excluded_numbers_Ok _ _ Hn1), (excluded_numbers_Ok _ _ Hn2).
  split; intros (day & Hday & Hk).
  - assert (lower day ∈ lower <$> days2) as Hin
      by (apply Hset, list_elem_of_fmap; eauto).
    apply list_elem_of_fmap in Hin as (day2 & Heq & Hday2).
    exists day2. split; [done | congruence].
  - assert (lower day ∈ lower <$> days1) as Hin
      by (apply Hset, list_elem_of_fmap; eauto).
    apply list_elem_of_fmap in Hin as (day1 & Heq & Hday1).
    exists day1. split; [done | congruence].
Qed.

Lemma generate_weekdays_as_set_witness :
  _generate_dates self0 738886 738892 ["Saturday"; "SUNDAY"]
  = _generate_dates self0 738886 738892 ["sunday"; "saturday"; "Sunday"].
Proof.
  apply generate_weekdays_as_set.
  - intros day Hday.
    apply elem_of_cons in Hday as [->|Hday];
      [exists "saturday"; split; [|reflexivity];
       apply (bool_decide_unpack _); vm_compute; exact I|].
    apply elem_of_cons in Hday as [->|Hday];
      [exists "sunday"; split; [|reflexivity];
       apply (bool_decide_unpack _); vm_compute; exact I|].
    by apply elem_of_nil in Hday.
  - intros x. simpl. rewrite !elem_of_cons, !elem_of_nil. tauto.
Defined.

(** X5. A schedule can be generated in two parts: when the generator returns
    for [start_date .. end_date], it returns for [start_date .. m] and for
    [m + 1 .. end_date] too, for each day [m] in between, and the first
    result is the second followed by the third. *)
Theorem generate_split (self : WordDateGenerator) (s m e : Z)
    (days : list string) (out : list Z) :
  s ≤ m → m < e →
  _generate_dates self s e days = Ok out →
  ∃ out1 out2,
    _generate_dates self s m days = Ok out1
    ∧ _generate_dates self (m + 1) e days = Ok out2
    ∧ out = out1 ++ out2.
Proof.
  intros Hsm Hme H.
  apply generate_dates_Ok_seqZ in H as (nums & X & Hn & HX & -> & Hv).
  exists (filter (kept nums X) (seqZ s (m - s + 1))),
         (filter (kept nums X) (seqZ (m + 1) (e - (m + 1) + 1))).
  split; [|split].
  - apply generate_dates_Ok_intro; try done. intros d Hd. apply Hv. lia.
  - apply generate_dates_Ok_intro; try done. intros d Hd. apply Hv. lia.
  - rewrite <- filter_app. f_equal.
    replace (e - s + 1) with ((m - s + 1) + (e - (m + 1) + 1)) by lia.
    rewrite seqZ_app by lia. do 2 f_equal. lia.
Qed.

Lemma generate_split_witness :
  ∃ out1 out2,
    _generate_dates self0 738886 738888 ["saturday"; "sunday"] = Ok out1
    ∧ _generate_dates self0 (738888 + 1) 738892 ["saturday"; "sunday"]
      = Ok out2
    ∧ [738886; 738887; 738888; 738889; 738890] = out1 ++ out2.
Proof.
  apply (generate_split self0 738886 738888 738892 ["saturday"; "sunday"]).
  - lia.
  - lia.
  - vm_compute. reflexivity.
Defined.

(** X6. Excluding one more range of dates removes from the schedule exactly
    the dates of that range: the result is the former result without the
    dates between the start and the end of the new range.  The new range may
    be added at any place of the collection and any number of times. *)
Theorem generate_add_range (self self' : WordDateGenerator)
    (r : DateRangeElement) (s e : Z) (days : list string) (out : list Z) :
  valid_range r →
  (∀ x, x ∈ excluded_date_ranges self' ↔
        x = r ∨ x ∈ excluded_date_ranges self) →
  _generate_dates self s e days = Ok out →
  _generate_dates self' s e days
  = Ok (filter (fun d => ¬ (get_start_date r ≤ d ≤ get_end_date r)) out).
Proof.
  intros Hr Hset H.
  apply generate_dates_Ok_seqZ in H as (nums & X & Hn & HX & -> & Hv).
  assert (∃ X', excluded_dates_of (excluded_date_ranges self') = Ok X')
    as [X' HX'].
  { apply excluded_dates_of_is_Ok. intros x Hx.
    apply Hset in Hx as [->|Hx]; [by apply range_days_valid|].
    revert x Hx. apply excluded_dates_of_is_Ok. by exists X. }
  rewrite (generate_dates_Ok_intro self' s e days nums X' Hn HX' Hv).
  f_equal. rewrite list_filter_filter. apply list_filter_iff.
  intros d. unfold kept.
  rewrite (excluded_dates_of_Ok _ _ HX' d), (excluded_dates_of_Ok _ _ HX d).
  split.
  - intros [Hw Hd]. split; [|split; [done|]].
    + intros Hspan. apply Hd. exists r. split; [|done]. apply Hset. by left.
    + intros (x & Hx & Hspan). apply Hd. exists x. split; [|done].
      apply Hset. by right.
  - intros (Hspan & Hw & Hd). split; [done|].
    intros (x & Hx & Hx'). apply Hset in Hx as [->|Hx]; [done|].
    apply Hd. by exists x.
Qed.

Lemma generate_add_range_witness :
  _generate_dates
    (with_ranges self0 [ {| get_start_date := 738887;
                            get_end_date := 738888 |};
                         {| get_start_date := 738887;
                            get_end_date := 738888 |} ])
    738886 738892 ["saturday"; "sunday"]
  = Ok (filter (fun d => ¬ (738887 ≤ d ≤ 738888))
               [738886; 738887; 738888; 738889; 738890]).
Proof.
  apply (generate_add_range self0 _
           {| get_start_date := 738887; get_end_date := 738888 |}).
  - split; simpl; unfold Date.valid, Date.MINORD, Date.MAXORD; lia.
  - intros x. simpl. rewrite !elem_of_cons, !elem_of_nil. tauto.
  - vm_compute. reflexivity.
Defined.

(** X7. When every weekday is excluded, the schedule is empty. *)
Theorem generate_all_weekdays_excluded (self : WordDateGenerator) (s e : Z)
    (days : list string) :
  Date.valid s → Date.valid e →
  (∀ day, day ∈ days → is_weekday_name day) →
  (∀ name, name ∈ weekday_names → ∃ day, day ∈ days ∧ eq_nocase day name) →
  Forall valid_range (excluded_date_ranges self) →
  _generate_dates self s e days = Ok [].
Proof.
  intros Hs He Hdays Hall Hrs.
  destruct (generate_dates_valid self s e days Hs He Hdays Hrs)
    as (nums & X & Hn & HX & Hgen).
  rewrite Hgen. f_equal. apply elem_of_nil_inv. intros d Hd.
  apply list_elem_of_filter in Hd as [[Hw _] _]. apply Hw.
  apply (weekday_excluded days nums d Hn). apply Hall.
  apply list_elem_of_lookup. eexists. apply weekday_name_lookup.
Qed.

Lemma generate_all_weekdays_excluded_witness :
  _generate_dates self0 738886 738892
    ["Monday"; "Tuesday"; "Wednesday"; "Thursday"; "Friday"; "Saturday";
     "Sunday"] = Ok [].
Proof.
  apply generate_all_weekdays_excluded.
  - unfold Date.valid, Date.MINORD, Date.MAXORD. lia.
  - unfold Date.valid, Date.MINORD, Date.MAXORD. lia.
  - intros day Hday. apply is_weekday_name_lookup.
    repeat (apply elem_of_cons in Hday as [->|Hday];
            [vm_compute; by eexists|]).
    by apply elem_of_nil in Hday.
  - intros name Hname. unfold weekday_names in Hname.
    apply elem_of_cons in Hname as [->|Hname];
      [exists "Monday"; split; [|reflexivity];
       apply (bool_decide_unpack _); vm_compute; exact I|].
    apply elem_of_cons in Hname as [->|Hname];
      [exists "Tuesday"; split; [|reflexivity];
       apply (bool_decide_unpack _); vm_compute; exact I|].
    apply elem_of_cons in Hname as [->|Hname];
      [exists "Wednesday"; split; [|reflexivity];
       apply (bool_decide_unpack _); vm_compute; exact I|].
    apply elem_of_cons in Hname as [->|Hname];
      [exists "Thursday"; split; [|reflexivity];
       apply (bool_decide_unpack _); vm_compute; exact I|].
    apply elem_of_cons in Hname as [->|Hname];
      [exists "Friday"; split; [|reflexivity];
       apply (bool_decide_unpack _); vm_compute; exact I|].
    apply elem_of_cons in Hname as [->|Hname];
      [exists "Saturday"; split; [|reflexivity];
       apply (bool_decide_unpack _); vm_compute; exact I|].
    apply elem_of_cons in Hname as [->|Hname];
      [exists "Sunday"; split; [|reflexivity];
       apply (bool_decide_unpack _); vm_compute; exact I|].
    by apply elem_of_nil in Hname.
  - simpl. constructor.
Defined.

Lemma length_filter_fmap {A B} (f : A → B) (P : B → Prop)
    `{∀ y, Decision (P y)} (l : list A) :
  length (filter P (f <$> l)) = length (filter (fun x => P (f x)) l).
Proof.
  induction l as [|x l IH]; [done|].
  rewrite fmap_cons, !filter_cons. case_decide; simpl; by rewrite IH.
Qed.

Lemma weekday_add (d k : Z) :
  Date.weekday (d + k) = (Date.weekday d + k) mod 7.
Proof.
  unfold Date.weekday. rewrite Zplus_mod_idemp_l. f_equal. lia.
Qed.

(** X8. For a start date, an end date seven days later, Saturdays and
    Sundays excluded and no excluded range (the values that [__init__] gives
    by default when the day does not change while it runs), the schedule has
    six dates, or five when the start date is a Saturday or a Sunday, and
    none of them is on a weekend. *)
Theorem generate_week_ahead (self : WordDateGenerator) (s : Z) :
  Date.valid s → Date.valid (s + 7) →
  excluded_date_ranges self = [] →
  ∃ out,
    _generate_dates self s (s + 7) ["saturday"; "sunday"] = Ok out
    ∧ length out = (if decide (Date.weekday s < 5) then 6%nat else 5%nat)
    ∧ ∀ d, d ∈ out → Date.weekday d < 5.
Proof.
  intros Hs He Hrs.
  assert (mapM weekday_number ["saturday"; "sunday"] = Ok [5; 6]) as Hn
    by reflexivity.
  eexists. split; [|split].
  - apply (generate_dates_Ok_intro _ s (s + 7) _ [5; 6] ∅ Hn).
    + by rewrite Hrs.
    + intros d Hd. unfold Date.valid in *. lia.
  - replace (s + 7 - s + 1) with 8 by lia.
    rewrite <- (fmap_add_range s 8), length_filter_fmap.
    rewrite (list_filter_iff _ (fun k => (Date.weekday s + k) mod 7 < 5)).
    2:{ intros k. unfold kept. rewrite weekday_add.
        pose proof (Z.mod_pos_bound (Date.weekday s + k) 7 ltac:(lia)).
        rewrite !not_elem_of_cons. split.
        - intros [(? & ? & _) _]. lia.
        - intros ?. split; [|apply not_elem_of_empty].
          split; [lia|]. split; [lia|]. apply not_elem_of_nil. }
    pose proof (weekday_bounds s) as Hw.
    generalize dependent (Date.weekday s). intros w Hw.
    assert (w = 0 ∨ w = 1 ∨ w = 2 ∨ w = 3 ∨ w = 4 ∨ w = 5 ∨ w = 6)
      as Hcases by lia.
    destruct_or!; subst w; reflexivity.
  - intros d Hd. apply list_elem_of_filter in Hd as [[Hd _] _].
    pose proof (weekday_bounds d). rewrite !not_elem_of_cons in Hd. lia.
Qed.

Lemma generate_week_ahead_witness :
  ∃ out,
    _generate_dates self0 738891 (738891 + 7) ["saturday"; "sunday"] = Ok out
    ∧ length out
      = (if decide (Date.weekday 738891 < 5) then 6%nat else 5%nat)
    ∧ ∀ d, d ∈ out → Date.weekday d < 5.
Proof.
  apply (generate_week_ahead self0 738891).
  - unfold Date.valid, Date.MINORD, Date.MAXORD. lia.
  - unfold Date.valid, Date.MINORD, Date.MAXORD. lia.
  - reflexivity.
Defined.

(** ** More on the table binder *)

Lemma py_index_Raise (n : nat) (c : Z) (e : exn) :
  py_index n c = Raise e ↔
  e = IndexError ∧ (c < - Z.of_nat n ∨ Z.of_nat n ≤ c).
Proof.
  unfold py_index. repeat case_decide; split; try discriminate.
  - intros [_ ?]. lia.
  - intros [_ ?]. lia.
  - intros [= <-]. split; [done | lia].
  - by intros [-> _].
Qed.

Lemma generate_dates_congr (self1 self2 : WordDateGenerator) (s e : Z)
    (days : list string) :
  excluded_date_ranges self1 = excluded_date_ranges self2 →
  _generate_dates self1 s e days = _generate_dates self2 s e days.
Proof. intros H. unfold _generate_dates. by rewrite H. Qed.

Section TableBinderMore.
Variable strftime : string → date → option string.

#[local] Abbreviation bind := (bind strftime).

(** Binding the same dates again to the table that the loop has left
    changes nothing and ends as the first time. *)
Lemma bind_idempotent dates rows c fmt :
  bind dates (bind dates rows c fmt).1 c fmt = bind dates rows c fmt.
Proof.
  revert dates. induction rows as [|r rows IH]; intros dates.
  - by rewrite !bind_nil_rows.
  - destruct dates as [|d dates]; [by rewrite !bind_nil_dates|].
    rewrite (bind_cons strftime d dates r rows).
    destruct (strftime fmt d) as [text|] eqn:Ht.
    2:{ simpl fst. by rewrite bind_cons, Ht. }
    destruct (py_index (length r) c) as [j|e] eqn:Hj.
    2:{ simpl fst. by rewrite bind_cons, Ht, Hj. }
    specialize (IH dates).
    destruct (bind dates rows c fmt) as [rows' res]. simpl fst in *.
    rewrite bind_cons, Ht, length_insert, Hj, IH.
    by rewrite list_insert_insert_eq.
Qed.

(** X9. [add_dates_to_table] is idempotent: called again on its own result,
    it leaves every cell as the first call left it and ends in the same way
    (normally, or with the same exception). *)
Theorem add_dates_to_table_idempotent (self : WordDateGenerator) :
  add_dates_to_table strftime (add_dates_to_table strftime self).1
  = add_dates_to_table strftime self.
Proof.
  unfold add_dates_to_table at 2 3.
  destruct (_generate_dates self (start_date self) (end_date self)
              (excluded_days self)) as [dates|e] eqn:G.
  - pose proof (bind_idempotent dates (selected_table self)
                  (date_column self) (date_format self)) as Hidem.
    destruct (bind dates (selected_table self) (date_column self)
                (date_format self)) as [t res] eqn:B.
    simpl fst in *. unfold add_dates_to_table. simpl.
    rewrite (generate_dates_congr _ self) by reflexivity.
    rewrite G, Hidem. done.
  - simpl fst. unfold add_dates_to_table. by rewrite G.
Qed.

(** X10. When the loop raises an exception, it does so at the first pair of a
    row and a date for which the template is rejected ([ValueError]) or the
    row lacks the column ([IndexError]): the rows before that pair hold the
    rendering of their date, and the rows from that pair on are as they
    were. *)
Theorem bind_raises_at_first_failure (dates : list date) (rows rows' : table)
    (c : Z) (fmt : string) (e : exn) :
  bind dates rows c fmt = (rows', Raise e) →
  ∃ k r d,
    rows !! k = Some r ∧ dates !! k = Some d
    ∧ (strftime fmt d = None ∧ e = ValueError
       ∨ is_Some (strftime fmt d)
         ∧ py_index (length r) c = Raise IndexError ∧ e = IndexError)
    ∧ (∀ i ri di, (i < k)%nat → rows !! i = Some ri → dates !! i = Some di →
         ∃ text j, strftime fmt di = Some text
                   ∧ py_index (length ri) c = Ok j
                   ∧ rows' !! i = Some (<[j := text]> ri))
    ∧ (∀ i, (k ≤ i)%nat → rows' !! i = rows !! i).
Proof.
  revert dates rows'. induction rows as [|r rows IH]; intros dates rows'.
  - by rewrite bind_nil_rows.
  - destruct dates as [|d dates]; [by rewrite bind_nil_dates|].
    rewrite bind_cons. destruct (strftime fmt d) as [text|] eqn:Ht.
    2:{ intros [= <- <-]. exists 0%nat, r, d.
        split; [done|]. split; [done|]. split; [by left|].
        split; [intros; lia | done]. }
    destruct (py_index (length r) c) as [j|e'] eqn:Hj.
    2:{ intros [= <- <-]. apply py_index_Raise in Hj as Hj'.
        destruct Hj' as [-> _]. exists 0%nat, r, d.
        split; [done|]. split; [done|]. split; [right; by rewrite Ht|].
        split; [intros; lia | done]. }
    destruct (bind dates rows c fmt) as [rows'' res] eqn:B.
    intros [= <- ->].
    destruct (IH dates rows'' B)
      as (k & rk & dk & Hrk & Hdk & Hfail & Hbefore & Hafter).
    exists (S k), rk, dk. split; [done|]. split; [done|]. split; [done|].
    split.
    + intros [|i] ri di Hi Hri Hdi; simpl in *.
      * injection Hri as <-. injection Hdi as <-. by exists text, j.
      * apply Hbefore; [lia | done | done].
    + intros [|i] Hi; [lia|]. simpl. apply Hafter. lia.
Qed.

(** X11. For rows of [n] cells each, a first date that the template renders
    and at least one row, the loop raises [IndexError] exactly when the
    column index is outside [-n .. n - 1]. *)
Theorem bind_index_error_iff (n : nat) (c : Z) (d : date)
    (dates : list date) (r : row) (rows : table) (fmt : string) :
  Forall (fun r' : row => length r' = n) (r :: rows) →
  is_Some (strftime fmt d) →
  (bind (d :: dates) (r :: rows) c fmt).2 = Raise IndexError
  ↔ (c < - Z.of_nat n ∨ Z.of_nat n ≤ c).
Proof.
  intros Hn [text Ht]. split.
  - intros H. apply bind_Raise_IndexError in H as (r' & Hr' & H).
    apply py_index_Raise in H as [_ H].
    by rewrite (proj1 (Forall_forall _ _) Hn r' Hr') in H.
  - intros Hc. rewrite bind_cons, Ht.
    inversion Hn as [|? ? Hr _]; subst.
    assert (py_index (length r) c = Raise IndexError) as ->; [|done].
    by apply py_index_Raise.
Qed.

(** X12. A configuration with an excluded weekday that is not a weekday name
    makes [add_dates_to_table] raise [KeyError] before any cell is written:
    the generator and its table are as they were. *)
Theorem add_dates_to_table_unknown_weekday (self : WordDateGenerator)
    (day : string) :
  day ∈ excluded_days self → ¬ is_weekday_name day →
  ∃ bad, bad ∈ excluded_days self ∧ ¬ is_weekday_name bad
         ∧ add_dates_to_table strftime self
           = (self, Raise (KeyError (lower bad))).
Proof.
  intros Hin Hday.
  destruct (excluded_numbers_invalid (excluded_days self) day Hin Hday)
    as (bad & Hbad & Hnot & Hraise).
  exists bad. split; [done|]. split; [done|].
  unfold add_dates_to_table, _generate_dates. by rewrite Hraise.
Qed.

(** X13. With the end date before the start date (and excluded weekdays that
    are weekday names), [add_dates_to_table] ends normally and writes
    nothing, whatever the column index and the template are. *)
Theorem add_dates_to_table_reversed (self : WordDateGenerator) :
  end_date self < start_date self →
  (∀ day, day ∈ excluded_days self → is_weekday_name day) →
  Forall valid_range (excluded_date_ranges self) →
  add_dates_to_table strftime self = (self, Ok ()).
Proof.
  intros Hlt Hdays Hrs. unfold add_dates_to_table.
  destruct (excluded_numbers_valid _ Hdays) as [nums Hn].
  destruct (excluded_dates_of_valid _ Hrs) as [X HX].
  rewrite (generate_dates_Ok_intro self _ _ _ nums X Hn HX) by lia.
  rewrite seqZ_nil by lia. rewrite filter_nil, bind_nil_dates.
  by destruct self.
Qed.

End TableBinderMore.

(** ** The handlers of the application *)

Lemma list_remove_app (x : nat) (l1 l2 : list nat) :
  x ∉ l1 → list_remove x (l1 ++ x :: l2) = Ok (l1 ++ l2).
Proof.
  induction l1 as [|y l1 IH]; intros Hx; simpl.
  - by rewrite decide_True.
  - apply not_elem_of_cons in Hx as [Hxy Hx].
    rewrite decide_False by done. by rewrite IH.
Qed.

Lemma twice_app (ws1 ws2 : list nat) :
  twice (ws1 ++ ws2) = twice ws1 ++ twice ws2.
Proof. unfold twice. apply stdpp.list_monad.list.bind_app. Qed.

Lemma elem_of_twice (w : nat) (ws : list nat) : w ∈ twice ws ↔ w ∈ ws.
Proof.
  unfold twice. rewrite list_elem_of_bind. split.
  - intros (w' & Hw & Hw'). rewrite !elem_of_cons, elem_of_nil in Hw.
    by destruct Hw as [->|[->|[]]].
  - intros Hw. exists w. split; [left | done].
Qed.

(** Removing a widget from the list that holds each widget twice, two times
    through references to that one list, removes both entries. *)
Lemma list_remove_twice (w : nat) (ws : list nat) :
  NoDup ws → w ∈ ws →
  ∃ ws1 ws2,
    ws = ws1 ++ w :: ws2
    ∧ list_remove w (twice ws) = Ok (twice ws1 ++ w :: twice ws2)
    ∧ list_remove w (twice ws1 ++ w :: twice ws2) = Ok (twice (ws1 ++ ws2))
    ∧ NoDup (ws1 ++ ws2).
Proof.
  intros Hnd Hw. apply list_elem_of_split in Hw as (ws1 & ws2 & ->).
  apply NoDup_app in Hnd as (Hnd1 & Hdisj & Hnd2).
  apply NoDup_cons in Hnd2 as [Hw2 Hnd2].
  assert (w ∉ ws1) as Hw1.
  { intros Hin. apply (Hdisj w Hin). left. }
  assert (w ∉ twice ws1) as Hw1' by by rewrite elem_of_twice.
  exists ws1, ws2. split; [done|]. split; [|split].
  - rewrite twice_app. change (twice (w :: ws2)) with (w :: w :: twice ws2).
    by rewrite list_remove_app.
  - rewrite list_remove_app by done. by rewrite twice_app.
  - apply NoDup_app. split; [done|]. split; [|done].
    intros x Hx1 Hx2. apply (Hdisj x Hx1). by right.
Qed.

Lemma elem_of_checked_days (x : string) (boxes : list CTkCheckBox) :
  x ∈ checked_days boxes ↔
  ∃ i cb, boxes !! i = Some cb ∧ checkbox_get cb = true
          ∧ lower (cget_text cb) = x.
Proof.
  unfold checked_days. rewrite elem_of_list_to_set, list_elem_of_fmap. split.
  - intros (cb & -> & Hcb). apply list_elem_of_filter in Hcb as [Hget Hcb].
    apply list_elem_of_lookup in Hcb as [i Hi]. by exists i, cb.
  - intros (i & cb & Hi & Hget & <-). exists cb. split; [done|].
    apply list_elem_of_filter. split; [done|].
    apply list_elem_of_lookup. by exists i.
Qed.

(** The lower-cased texts of the checkboxes are the weekday names, each at
    its place, so no two checkboxes stand for one name. *)
Lemma checkbox_names (boxes : list CTkCheckBox) (i : nat) (cb : CTkCheckBox) :
  cget_text <$> boxes = FULL_NAMES → boxes !! i = Some cb →
  weekday_names !! i = Some (lower (cget_text cb)).
Proof.
  intros Htexts Hi.
  assert (FULL_NAMES !! i = Some (cget_text cb)) as H.
  { rewrite <- Htexts, list_lookup_fmap, Hi. done. }
  destruct i as [|[|[|[|[|[|[|i]]]]]]]; simpl in H;
    try (injection H as <-; reflexivity).
  discriminate.
Qed.

Lemma checkbox_names_inj (boxes : list CTkCheckBox) (i k : nat)
    (cbi cbk : CTkCheckBox) :
  cget_text <$> boxes = FULL_NAMES →
  boxes !! i = Some cbi → boxes !! k = Some cbk →
  lower (cget_text cbi) = lower (cget_text cbk) → i = k.
Proof.
  intros Htexts Hi Hk Heq.
  pose proof (checkbox_names boxes i cbi Htexts Hi) as Hni.
  pose proof (checkbox_names boxes k cbk Htexts Hk) as Hnk.
  rewrite Heq in Hni.
  assert (NoDup weekday_names) as Hnd.
  { apply (bool_decide_unpack _). vm_compute. exact I. }
  by apply (NoDup_lookup _ _ _ _ Hnd Hni Hnk).
Qed.

(** Toggling a checkbox adds its name to the checked days or takes it
    away. *)
Lemma checked_days_toggle (boxes : list CTkCheckBox) (k : nat)
    (cb : CTkCheckBox) :
  cget_text <$> boxes = FULL_NAMES → boxes !! k = Some cb →
  let cb' := {| cget_text := cget_text cb;
                checkbox_get := negb (checkbox_get cb) |} in
  let name := lower (cget_text cb) in
  if checkbox_get cb
  then name ∈ checked_days boxes
       ∧ checked_days (<[k := cb']> boxes) = checked_days boxes ∖ {[name]}
  else checked_days (<[k := cb']> boxes) = {[name]} ∪ checked_days boxes.
Proof.
  intros Htexts Hk cb' name.
  pose proof (lookup_lt_Some _ _ _ Hk) as Hlt.
  assert (∀ x, x ∈ checked_days (<[k := cb']> boxes) ↔
               (checkbox_get cb = false ∧ x = name)
               ∨ (x ≠ name ∧ x ∈ checked_days boxes)) as Hmem.
  { intros x. rewrite !elem_of_checked_days. split.
    - intros (i & cbi & Hi & Hget & <-).
      destruct (decide (i = k)) as [->|Hne].
      + rewrite list_lookup_insert_eq in Hi by done. injection Hi as <-.
        left. simpl in *. split; [by destruct (checkbox_get cb) | done].
      + rewrite list_lookup_insert_ne in Hi by done. right. split.
        * intros Heq. apply Hne.
          by apply (checkbox_names_inj boxes i k cbi cb).
        * by exists i, cbi.
    - intros [[Hget ->]|[Hne (i & cbi & Hi & Hget & <-)]].
      + exists k, cb'. rewrite list_lookup_insert_eq by done.
        split; [done|]. split; [simpl; by rewrite Hget | done].
      + exists i, cbi. split; [|done].
        rewrite list_lookup_insert_ne; [done|]. intros ->.
        apply Hne. unfold name. congruence. }
  destruct (checkbox_get cb) eqn:Hget.
  - split.
    + apply elem_of_checked_days. by exists k, cb.
    + apply set_eq. intros x. rewrite Hmem, elem_of_difference,
        elem_of_singleton. split.
      * intros [[? _]|[? ?]]; [done | by split].
      * intros [? ?]. right. by split.
  - apply set_eq. intros x. rewrite Hmem, elem_of_union, elem_of_singleton.
    split.
    + intros [[_ ->]|[_ ?]]; [by left | by right].
    + intros [->|Hx]; [by left|].
      destruct (decide (x = name)) as [->|Hne]; [by left | by right].
Qed.

Ltac app_simpl :=
  cbn [fst snd ui_enabled exclude_day_checkboxes heap exclude_ranges document
       document_excluded_days document_excluded_date_ranges cget_text
       checkbox_get negb].

Lemma path_entry_consistent (self : App) (is_file : bool)
    (tables : list table) (today : date) (p : string) :
  consistent self →
  consistent (_path_entry_handler self is_file tables today p).1.
Proof.
  intros (Htexts & Hui & Hdoc & ws & Hnd & Hws). unfold _path_entry_handler.
  destruct (init is_file tables today p None None "%a. %b. %d" None None 0)
    as [g|e].
  - unfold consistent.
    cbn [fst ui_enabled exclude_day_checkboxes heap exclude_ranges document].
    split; [done|]. split; [by eexists|]. split.
    + by intros doc [= <-].
    + exists ws. split; [done|]. rewrite lookup_insert_ne; [done|].
      intros Heq. apply (is_fresh (dom (heap self))). rewrite Heq.
      by apply elem_of_dom_2 in Hws.
  - destruct e; simpl; by (split; [done|]; split; [done|]; split; eauto).
Qed.

Lemma click_weekday_consistent (self : App) (k : nat) :
  consistent self → ui_enabled self = true →
  (click_weekday self k).2 = Returned ∧ consistent (click_weekday self k).1.
Proof.
  intros (Htexts & Hui & Hdoc & ws & Hnd & Hws) Hen. unfold click_weekday.
  destruct (exclude_day_checkboxes self !! k) as [cb|] eqn:Hk.
  2:{ split; [done|]. split; [done|]. split; [done|]. split; eauto. }
  destruct (Hui Hen) as [doc Hd]. destruct (Hdoc doc Hd) as [Hdays Hrs].
  pose proof (checked_days_toggle _ k cb Htexts Hk) as Htoggle.
  cbv zeta in Htoggle.
  assert (cget_text <$> <[k := {| cget_text := cget_text cb;
                                  checkbox_get := negb (checkbox_get cb) |}]>
                          (exclude_day_checkboxes self) = FULL_NAMES) as Ht'.
  { rewrite list_fmap_insert. cbn [cget_text].
    rewrite list_insert_id; [done|]. by rewrite list_lookup_fmap, Hk. }
  unfold _weekday_checkbox_handler. app_simpl. rewrite Hd.
  destruct (checkbox_get cb) eqn:Hget; app_simpl; cbn [negb] in Htoggle, Ht'.
  - destruct Htoggle as [Hin Heq]. rewrite Hdays.
    rewrite decide_True by done. unfold consistent. app_simpl.
    split; [done|]. split; [done|]. split; [by eexists|]. split.
    + intros doc' [= <-]. app_simpl. by rewrite Heq.
    + eauto.
  - unfold consistent. app_simpl.
    split; [done|]. split; [done|]. split; [by eexists|]. split.
    + intros doc' [= <-]. app_simpl. by rewrite Hdays, Htoggle.
    + eauto.
Qed.

Lemma new_range_consistent (self : App) (w : nat) :
  consistent self → ui_enabled self = true →
  w ∉ default [] (heap self !! exclude_ranges self) →
  (_exclude_new_range_handler self w).2 = Returned
  ∧ consistent (_exclude_new_range_handler self w).1.
Proof.
  intros (Htexts & Hui & Hdoc & ws & Hnd & Hws) Hen Hw.
  destruct (Hui Hen) as [doc Hd]. destruct (Hdoc doc Hd) as [Hdays Hrs].
  unfold _exclude_new_range_handler. rewrite Hd. unfold consistent. app_simpl.
  split; [done|]. split; [done|]. split; [by eauto|].
  split; [by intros doc' [= <-]|].
  exists (ws ++ [w]). split.
  - rewrite Hws in Hw. cbn [default from_option id] in Hw. apply NoDup_app.
    split; [done|]. split; [|apply NoDup_singleton].
    intros x Hx Hx'. apply list_elem_of_singleton in Hx' as ->.
    by apply Hw, elem_of_twice.
  - rewrite Hrs. unfold heap_append. rewrite !lookup_alter_eq, Hws.
    cbn [fmap option_fmap option_map]. rewrite twice_app.
    by rewrite <- app_assoc.
Qed.

Lemma remove_range_consistent (self : App) (w : nat) :
  consistent self → ui_enabled self = true →
  w ∈ default [] (heap self !! exclude_ranges self) →
  (_remove_date_range_element self w).2 = Returned
  ∧ consistent (_remove_date_range_element self w).1.
Proof.
  intros (Htexts & Hui & Hdoc & ws & Hnd & Hws) Hen Hw.
  destruct (Hui Hen) as [doc Hd]. destruct (Hdoc doc Hd) as [Hdays Hrs].
  rewrite Hws in Hw. cbn [default from_option id] in Hw.
  apply (proj1 (elem_of_twice _ _)) in Hw.
  destruct (list_remove_twice w ws Hnd Hw)
    as (ws1 & ws2 & -> & Hrem1 & Hrem2 & Hnd').
  unfold _remove_date_range_element. rewrite Hws.
  cbn [default from_option id]. rewrite Hrem1, Hd. cbv zeta.
  rewrite Hrs, lookup_insert_eq. cbn [default from_option id]. rewrite Hrem2.
  unfold consistent. app_simpl.
  split; [done|]. split; [done|]. split; [by eauto|].
  split; [by intros doc' [= <-]|].
  exists (ws1 ++ ws2). split; [done|]. by rewrite lookup_insert_eq.
Qed.

Lemma App_init_consistent : consistent App_init.
Proof.
  split; [reflexivity|]. split; [done|]. split; [done|].
  exists []. split; [constructor | reflexivity].
Qed.

Lemma reachable_consistent (self : App) : reachable self → consistent self.
Proof.
  induction 1 as [|self is_file tables today p _ IH|self k _ IH Hen
                  |self w _ IH Hen Hw|self w _ IH Hen Hw].
  - apply App_init_consistent.
  - by apply path_entry_consistent.
  - by apply click_weekday_consistent.
  - by apply new_range_consistent.
  - by apply remove_range_consistent.
Qed.

Lemma checked_days_valid (boxes : list CTkCheckBox) (day : string) :
  cget_text <$> boxes = FULL_NAMES →
  day ∈ checked_days boxes → is_weekday_name day.
Proof.
  intros Htexts Hday.
  apply elem_of_checked_days in Hday as (i & cb & Hi & _ & <-).
  exists (lower (cget_text cb)). split; [|done].
  apply list_elem_of_lookup. exists i. by apply (checkbox_names boxes).
Qed.

Lemma generate_dates_no_KeyError (self : WordDateGenerator) (s e : Z)
    (days : list string) (key : string) :
  (∀ day, day ∈ days → is_weekday_name day) →
  _generate_dates self s e days ≠ Raise (KeyError key).
Proof.
  intros Hdays H. destruct (excluded_numbers_valid days Hdays) as [nums Hn].
  unfold _generate_dates in H. rewrite Hn in H. simpl in H.
  apply bind_Raise in H as [H|(X & _ & H)].
  - by apply excluded_dates_of_Raise in H.
  - by apply select_dates_Raise in H.
Qed.

(** X14. In every state of the application with a document, the excluded
    days of the document are the lower-cased texts of the checked
    checkboxes, each of them a weekday name: generating with them never
    raises [KeyError], in whatever order the set is gone through. *)
Theorem reachable_excluded_days (self : App) (doc : Document) :
  reachable self → document self = Some doc →
  document_excluded_days doc = checked_days (exclude_day_checkboxes self)
  ∧ (∀ day, day ∈ document_excluded_days doc → is_weekday_name day)
  ∧ (∀ g s e days key,
       (∀ day, day ∈ days ↔ day ∈ document_excluded_days doc) →
       _generate_dates g s e days ≠ Raise (KeyError key)).
Proof.
  intros Hreach Hd.
  destruct (reachable_consistent self Hreach) as (Htexts & _ & Hdoc & _).
  destruct (Hdoc doc Hd) as [Hdays _].
  assert (∀ day, day ∈ document_excluded_days doc → is_weekday_name day)
    as Hvalid.
  { intros day Hday. rewrite Hdays in Hday.
    by apply (checked_days_valid (exclude_day_checkboxes self)). }
  split; [done|]. split; [done|].
  intros g s e days key Hset. apply generate_dates_no_KeyError.
  intros day Hday. by apply Hvalid, Hset.
Qed.

(** X15. In every state of the application with a document, the list of
    ranges of the document is the list of the application itself, and it
    holds each range widget twice, as a new range is appended once through
    each of the two references.  The schedule is the one of the widgets taken
    once. *)
Theorem reachable_ranges_twice (self : App) (doc : Document) :
  reachable self → document self = Some doc →
  document_excluded_date_ranges doc = exclude_ranges self
  ∧ ∃ ws,
      NoDup ws
      ∧ heap self !! exclude_ranges self = Some (twice ws)
      ∧ ∀ entries g1 g2 s e days,
          excluded_date_ranges g1 = document_ranges self doc entries →
          excluded_date_ranges g2 = entries <$> ws →
          _generate_dates g1 s e days = _generate_dates g2 s e days.
Proof.
  intros Hreach Hd.
  destruct (reachable_consistent self Hreach)
    as (_ & _ & Hdoc & ws & Hnd & Hws).
  destruct (Hdoc doc Hd) as [_ Hrs]. split; [done|].
  exists ws. split; [done|]. split; [done|].
  intros entries g1 g2 s e days Hg1 Hg2. unfold _generate_dates.
  rewrite (excluded_dates_of_ext (excluded_date_ranges g1)
             (excluded_date_ranges g2)); [done|].
  intros r. rewrite Hg1, Hg2. unfold document_ranges. rewrite Hrs, Hws.
  cbn [default from_option id]. rewrite !list_elem_of_fmap.
  split; intros (w & -> & Hw); exists w; (split; [done|]);
    by apply elem_of_twice.
Qed.

(** X16. While the widgets are enabled, no handler of the checkboxes or of
    the ranges raises: there is a document, a day that is unchecked is in the
    set that it is removed from, and a range that is removed is found in the
    list both times. *)
Theorem reachable_handlers_return (self : App) :
  reachable self → ui_enabled self = true →
  (∀ k, (click_weekday self k).2 = Returned)
  ∧ (∀ w, w ∉ default [] (heap self !! exclude_ranges self) →
          (_exclude_new_range_handler self w).2 = Returned)
  ∧ (∀ w, w ∈ default [] (heap self !! exclude_ranges self) →
          (_remove_date_range_element self w).2 = Returned).
Proof.
  intros Hreach Hen. pose proof (reachable_consistent self Hreach) as Hc.
  split; [|split].
  - intros k. by apply click_weekday_consistent.
  - intros w Hw. by apply new_range_consistent.
  - intros w Hw. by apply remove_range_consistent.
Qed.

(** X17. Adding a range and removing it again leaves the list of ranges as
    it was. *)
Theorem new_range_then_remove (self : App) (w : nat) :
  reachable self → ui_enabled self = true →
  w ∉ default [] (heap self !! exclude_ranges self) →
  let self1 := (_exclude_new_range_handler self w).1 in
  let self2 := (_remove_date_range_element self1 w).1 in
  (_remove_date_range_element self1 w).2 = Returned
  ∧ exclude_ranges self2 = exclude_ranges self
  ∧ heap self2 !! exclude_ranges self2 = heap self !! exclude_ranges self.
Proof.
  intros Hreach Hen Hw self1 self2.
  destruct (reachable_consistent self Hreach)
    as (Htexts & Hui & Hdoc & ws & Hnd & Hws).
  destruct (Hui Hen) as [doc Hd]. destruct (Hdoc doc Hd) as [_ Hrs].
  rewrite Hws in Hw. cbn [default from_option id] in Hw.
  assert (heap self1 !! exclude_ranges self = Some (twice ws ++ w :: [w]))
    as Hws1.
  { unfold self1, _exclude_new_range_handler. rewrite Hd. app_simpl.
    rewrite Hrs. unfold heap_append. rewrite !lookup_alter_eq, Hws.
    cbn [fmap option_fmap option_map]. by rewrite <- app_assoc. }
  assert (exclude_ranges self1 = exclude_ranges self
          ∧ document self1 = Some doc) as [He1 Hd1].
  { unfold self1, _exclude_new_range_handler. by rewrite Hd. }
  unfold self2, _remove_date_range_element.
  rewrite He1, Hws1, Hd1. cbn [default from_option id].
  rewrite (list_remove_app w (twice ws) [w] Hw). cbv zeta.
  rewrite Hrs, lookup_insert_eq. cbn [default from_option id].
  rewrite (list_remove_app w (twice ws) [] Hw). app_simpl.
  split; [done|]. split; [done|].
  by rewrite lookup_insert_eq, app_nil_r, Hws.
Qed.

Lemma list_ascii_of_string_app (s t : string) :
  String.list_ascii_of_string (s +:+ t)
  = String.list_ascii_of_string s ++ String.list_ascii_of_string t.
Proof. induction s as [|c s IH]; [done|]. simpl. by rewrite IH. Qed.

Lemma endswith_app (s suffix : string) : endswith (s +:+ suffix) suffix = true.
Proof.
  unfold endswith. apply bool_decide_eq_true.
  rewrite list_ascii_of_string_app. by eexists.
Qed.

(** X18. [_generate] saves nothing when [add_dates_to_table] raises (the
    exception is passed on) or when the file dialogue is closed without a
    path, although the dates are in the table by then.  A document saved as a
    new file goes to the chosen path, with [.docx] appended unless the path
    ends in it, so that the saved path always ends in [.docx]; otherwise the
    document is saved over the file it was opened from. *)
Theorem generate_saves (strftime : string → date → option string)
    (document : WordDateGenerator) (save_as_new_file : bool)
    (chosen : string) :
  let written := add_dates_to_table strftime document in
  let out := _generate strftime document save_as_new_file chosen in
  generated_document out.1 = written.1
  ∧ (∀ e, written.2 = Raise e →
          out.2 = Raise e ∧ saved_to out.1 = None ∧ button_done out.1 = false)
  ∧ (written.2 = Ok () → save_as_new_file = true → chosen = "" →
     out.2 = Ok () ∧ saved_to out.1 = None ∧ button_done out.1 = false)
  ∧ (written.2 = Ok () → save_as_new_file = true → chosen ≠ "" →
     ∃ p, saved_to out.1 = Some p ∧ endswith p ".docx" = true
          ∧ (p = chosen ∨ p = chosen +:+ ".docx")
          ∧ (endswith chosen ".docx" = true → p = chosen)
          ∧ button_done out.1 = true)
  ∧ (written.2 = Ok () → save_as_new_file = false →
     saved_to out.1 = Some (path document) ∧ button_done out.1 = true).
Proof.
  intros written out. unfold out, _generate. fold written.
  assert (path written.1 = path document) as Hpath.
  { unfold written, add_dates_to_table.
    destruct (_generate_dates document (start_date document)
                (end_date document) (excluded_days document)); [|done].
    by destruct (bind strftime _ _ _ _). }
  destruct written as [document' [[]|e]]; simpl in *.
  - split; [by destruct save_as_new_file, (decide (chosen = ""))|].
    split; [done|]. split; [|split].
    + intros _ -> ->. done.
    + intros _ -> Hne. rewrite decide_False by done. simpl.
      destruct (endswith chosen ".docx") eqn:E.
      * exists chosen. repeat split; try done. by left.
      * exists (chosen +:+ ".docx"). split; [done|].
        split; [apply endswith_app|]. split; [by right|]. done.
    + intros _ ->. simpl. unfold save. simpl. by rewrite Hpath.
  - split; [done|]. split; [by intros e' [= <-]|]. repeat split; done.
Qed.

(** ** The extras on concrete inputs *)

Lemma bind_raises_at_first_failure_witness :
  ∃ k r d,
    [["a0"; "b0"; "c0"]; ["a1"]] !! k = Some r
    ∧ [738886; 738887] !! k = Some d
    ∧ (weekday_strftime format0 d = None ∧ IndexError = ValueError
       ∨ is_Some (weekday_strftime format0 d)
         ∧ py_index (length r) 2 = Raise IndexError
         ∧ IndexError = IndexError)
    ∧ (∀ i ri di, (i < k)%nat →
         [["a0"; "b0"; "c0"]; ["a1"]] !! i = Some ri →
         [738886; 738887] !! i = Some di →
         ∃ text j, weekday_strftime format0 di = Some text
                   ∧ py_index (length ri) 2 = Ok j
                   ∧ [["a0"; "b0"; "Mon. week 1"]; ["a1"]] !! i
                     = Some (<[j := text]> ri))
    ∧ (∀ i, (k ≤ i)%nat →
         [["a0"; "b0"; "Mon. week 1"]; ["a1"]] !! i
         = [["a0"; "b0"; "c0"]; ["a1"]] !! i).
Proof.
  apply (bind_raises_at_first_failure weekday_strftime [738886; 738887]
           [["a0"; "b0"; "c0"]; ["a1"]]
           [["a0"; "b0"; "Mon. week 1"]; ["a1"]] 2 format0 IndexError).
  vm_compute. reflexivity.
Defined.

Lemma bind_index_error_iff_witness :
  (bind weekday_strftime [738886] table0 (-4) format0).2 = Raise IndexError
  ↔ (-4 < - Z.of_nat 3 ∨ Z.of_nat 3 ≤ -4).
Proof.
  apply (bind_index_error_iff weekday_strftime 3 (-4) 738886 []
           ["a0"; "b0"; "c0"]).
  - repeat constructor.
  - by eexists.
Defined.

Lemma add_dates_to_table_unknown_weekday_witness :
  ∃ bad, bad ∈ excluded_days self_funday ∧ ¬ is_weekday_name bad
         ∧ add_dates_to_table weekday_strftime self_funday
           = (self_funday, Raise (KeyError (lower bad))).
Proof.
  apply (add_dates_to_table_unknown_weekday weekday_strftime self_funday
           "funday").
  - apply (bool_decide_unpack _). vm_compute. exact I.
  - intros Hw. apply is_weekday_name_lookup in Hw as [k Hk].
    vm_compute in Hk. discriminate.
Defined.

Lemma add_dates_to_table_reversed_witness :
  add_dates_to_table weekday_strftime self_reversed = (self_reversed, Ok ()).
Proof.
  apply add_dates_to_table_reversed.
  - simpl. lia.
  - intros day Hday. apply is_weekday_name_lookup. simpl in Hday.
    apply elem_of_cons in Hday as [->|Hday]; [vm_compute; by eexists|].
    by apply elem_of_nil in Hday.
  - simpl. constructor.
Defined.

Lemma app1_reachable : reachable app1.
Proof. apply reachable_path_entry, reachable_init. Qed.

Lemma app2_reachable : reachable app2.
Proof.
  apply reachable_new_range; [apply app1_reachable | reflexivity |].
  intros H. vm_compute in H. by apply elem_of_nil in H.
Qed.

Lemma reachable_excluded_days_witness :
  document_excluded_days doc1 = checked_days (exclude_day_checkboxes app1)
  ∧ (∀ day, day ∈ document_excluded_days doc1 → is_weekday_name day)
  ∧ (∀ g s e days key,
       (∀ day, day ∈ days ↔ day ∈ document_excluded_days doc1) →
       _generate_dates g s e days ≠ Raise (KeyError key)).
Proof.
  apply (reachable_excluded_days app1 doc1).
  - apply app1_reachable.
  - reflexivity.
Defined.

Lemma reachable_ranges_twice_witness :
  document_excluded_date_ranges doc1 = exclude_ranges app2
  ∧ ∃ ws,
      NoDup ws
      ∧ heap app2 !! exclude_ranges app2 = Some (twice ws)
      ∧ ∀ entries g1 g2 s e days,
          excluded_date_ranges g1 = document_ranges app2 doc1 entries →
          excluded_date_ranges g2 = entries <$> ws →
          _generate_dates g1 s e days = _generate_dates g2 s e days.
Proof.
  apply (reachable_ranges_twice app2 doc1).
  - apply app2_reachable.
  - reflexivity.
Defined.

Lemma reachable_handlers_return_witness :
  (∀ k, (click_weekday app2 k).2 = Returned)
  ∧ (∀ w, w ∉ default [] (heap app2 !! exclude_ranges app2) →
          (_exclude_new_range_handler app2 w).2 = Returned)
  ∧ (∀ w, w ∈ default [] (heap app2 !! exclude_ranges app2) →
          (_remove_date_range_element app2 w).2 = Returned).
Proof.
  apply (reachable_handlers_return app2).
  - apply app2_reachable.
  - reflexivity.
Defined.

Lemma new_range_then_remove_witness :
  (_remove_date_range_element app2 7).2 = Returned
  ∧ exclude_ranges (_remove_date_range_element app2 7).1
    = exclude_ranges app1
  ∧ heap (_remove_date_range_element app2 7).1
      !! exclude_ranges (_remove_date_range_element app2 7).1
    = heap app1 !! exclude_ranges app1.
Proof.
  apply (new_range_then_remove app1 7).
  - apply app1_reachable.
  - reflexivity.
  - intros H. vm_compute in H. by apply elem_of_nil in H.
Defined.

Lemma generate_saves_witness :
  ∃ p, saved_to (_generate weekday_strftime self0 true "week one").1 = Some p
       ∧ endswith p ".docx" = true
       ∧ (p = "week one" ∨ p = "week one" +:+ ".docx")
       ∧ (endswith "week one" ".docx" = true → p = "week one")
       ∧ button_done (_generate weekday_strftime self0 true "week one").1
         = true.
Proof.
  apply (generate_saves weekday_strftime self0 true "week one").
  - vm_compute. reflexivity.
  - reflexivity.
  - discriminate.
Defined.
